(** * bap-ida-python: the taint-propagation plugin ([bap_taint.py])

    A shallow embedding of [plugins/bap/utils/bap_taint.py]: the session
    builder [PropagateTaint.__init__], the completion handler
    [BapTaint.finish] and the process-wide callback registry
    ([BapTaint._callbacks], [install_callback], [_do_callbacks]).

    Python strings are [string]; Python integers are [Z]; the class-level
    dict [_callbacks] is a [gmap string (list Callback)]; the host (IDA)
    is a record of mutable state threaded through a state-and-exception
    monad, with every host call logged in a trace. *)

From Stdlib Require Import ZArith List Ascii String Decimal Hexadecimal DecimalString.
From stdpp Require Import gmap strings list fin_maps.

Local Open Scope string_scope.
Local Open Scope Z_scope.
Local Open Scope list_scope.
Local Open Scope stdpp_scope.

(** ** Python string formatting *)

Module PyFormat.

(** One hexadecimal digit, upper case, as [{:X}] prints it. *)
Definition hex_upper_digit (k : Z) : ascii :=
  if k <? 10 then ascii_of_nat (Z.to_nat (48 + k))
  else ascii_of_nat (Z.to_nat (55 + k)).

(** Digits of a non-negative integer, most significant first, pushed in
    front of [acc]. The fuel bounds the number of digits. *)
Fixpoint hex_upper_digits (fuel : nat) (n : Z) (acc : string) : string :=
  match fuel with
  | O => acc
  | S fuel' =>
      let acc' := String (hex_upper_digit (n mod 16)) acc in
      if n / 16 =? 0 then acc' else hex_upper_digits fuel' (n / 16) acc'
  end.

(** Enough fuel for every digit of [n]: one more than its binary size. *)
Definition hex_fuel (n : Z) : nat := S (Z.to_nat (Z.log2 n)).

(** ['{:X}'.format(n)]: upper-case hexadecimal, with a leading minus
    sign for a negative integer. *)
Definition format_X (n : Z) : string :=
  if n <? 0 then "-" +:+ hex_upper_digits (hex_fuel (- n)) (- n) ""
  else hex_upper_digits (hex_fuel n) n "".

(** ['{}'.format(n)] on an integer: its decimal rendering. *)
Definition format_int (n : Z) : string :=
  NilZero.string_of_int (Z.to_int n).

(** [sep.join(l)]. *)
Definition join (sep : string) (l : list string) : string :=
  String.concat sep l.

(** Reading back an upper-case hexadecimal digit string. *)
Definition hex_upper_value (c : ascii) : option Z :=
  let k := Z.of_nat (nat_of_ascii c) in
  if (48 <=? k) && (k <=? 57) then Some (k - 48)
  else if (65 <=? k) && (k <=? 70) then Some (k - 55)
  else None.

Fixpoint parse_hex_upper (s : string) (acc : Z) : option Z :=
  match s with
  | EmptyString => Some acc
  | String c s' =>
      match hex_upper_value c with
      | Some d => parse_hex_upper s' (16 * acc + d)
      | None => None
      end
  end.

End PyFormat.

(** ** Python values of the plugin *)

(** [x or default] on the answer of a string prompt: [None] (the prompt was
    cancelled) and the empty string are falsy. *)
Definition or_str (x : option string) (default : string) : string :=
  match x with
  | None => default
  | Some s => if String.eqb s "" then default else s
  end.

(** [x or default] on the answer of an integer prompt: [None] and [0] are
    falsy. *)
Definition or_long (x : option Z) (default : Z) : Z :=
  match x with
  | None => default
  | Some n => if n =? 0 then default else n
  end.

(** The dict handed to every callback: [{'ea': ..., 'ptr_or_reg': ...}]. *)
Record Payload := { ea : Z; ptr_or_reg : string }.

(** A callback handle. The plugin never looks inside a callback: it calls
    it with the payload and ignores what it returns. [cb_body] says, for a
    payload, whether the call returns ([None]) or raises ([Some msg]).
    What a callback does to the host besides is not modelled: a call shows
    in the trace as [EvCall], and a callback leaves the registry alone. *)
Record Callback := { cb_id : nat; cb_body : Payload -> option string }.

(** A temporary file. The Python object keeps its [name]; what has been
    written and whether it has been closed live in the store of the
    world, under [handle]. *)
Module File.
Record t := { handle : nat; name : string }.
Record state := { path : string; data : string; closed : bool }.
End File.

(** Exceptions that leave a call. *)
Inductive PyExn :=
| KeyError (key : string)
| ValueError (msg : string)
| AssertionError
| Fatal (msg : string)
| CallbackRaised (cb : nat) (msg : string).

(** Calls into the host, in the order they are made. *)
Inductive Event :=
| EvDisableScriptTimeout
| EvAskStr (hist : Z) (defval : string) (prompt : string)
| EvAskLong (defval : Z) (prompt : string)
| EvGetFunctionName (addr : Z)
| EvExecScript (script : string)
| EvRefreshIdaviewAnyway
| EvRefresh
| EvFatal (msg : string)
| EvCall (cb : nat) (arg : Payload).

(** The mutable world: the host's state, the temporary files, the class
    attribute [BapTaint._callbacks] and the trace of host calls. *)
Record World := {
  script_timeout : bool;
  ScreenEA : Z;
  files : list File.state;
  _callbacks : gmap string (list Callback);
  trace : list Event
}.

(** What a session reads from outside the plugin: the user's answers to
    the two prompts ([None] when a prompt is cancelled), the host's table
    of function names, and the two parts of the base class [BapIda] the
    builder relies on. *)
Record Env := {
  askstr_answer : option string;
  asklong_answer : option Z;
  function_name : Z -> string;
  (** [self.args] as [BapIda.__init__] leaves it. *)
  base_args : list string;
  (** The path [BapIda.tmpfile] gives the file it allocates as the [n]-th
      file object, for a suffix. *)
  tmpname : nat -> string -> string
}.

(** ** State and exceptions *)

Definition M (A : Type) : Type := World -> (PyExn + A) * World.

Definition ret {A} (a : A) : M A := fun w => (inr a, w).

Definition bind {A B} (m : M A) (k : A -> M B) : M B :=
  fun w =>
    match m w with
    | (inl e, w') => (inl e, w')
    | (inr a, w') => k a w'
    end.

Definition raise {A} (e : PyExn) : M A := fun w => (inl e, w).

Notation "x <- c ;; k" := (bind c (fun x => k))
  (at level 100, c at next level, right associativity).
Notation "c ;;; k" := (bind c (fun _ => k))
  (at level 100, right associativity).

Definition log (e : Event) : M unit :=
  fun w =>
    (inr tt,
     {| script_timeout := script_timeout w; ScreenEA := ScreenEA w;
        files := files w; _callbacks := _callbacks w;
        trace := trace w ++ [e] |}).

Definition set_files (fs : list File.state) : M unit :=
  fun w =>
    (inr tt,
     {| script_timeout := script_timeout w; ScreenEA := ScreenEA w;
        files := fs; _callbacks := _callbacks w; trace := trace w |}).

Definition set_callbacks (m : gmap string (list Callback)) : M unit :=
  fun w =>
    (inr tt,
     {| script_timeout := script_timeout w; ScreenEA := ScreenEA w;
        files := files w; _callbacks := m; trace := trace w |}).

Definition set_script_timeout (b : bool) : M unit :=
  fun w =>
    (inr tt,
     {| script_timeout := b; ScreenEA := ScreenEA w;
        files := files w; _callbacks := _callbacks w; trace := trace w |}).

(** The user moves the cursor: not a call of the plugin, but something the
    host does between two of them. *)
Definition move_cursor (a : Z) : M unit :=
  fun w =>
    (inr tt,
     {| script_timeout := script_timeout w; ScreenEA := a;
        files := files w; _callbacks := _callbacks w; trace := trace w |}).

(** [for x in l: body(x)]; an exception leaves the loop. *)
Fixpoint for_each {A} (l : list A) (body : A -> M unit) : M unit :=
  match l with
  | [] => ret tt
  | x :: l' => body x ;;; for_each l' body
  end.

(** ** The host's primitives *)

(** [idaapi.disable_script_timeout()]. *)
Definition disable_script_timeout : M unit :=
  log EvDisableScriptTimeout ;;; set_script_timeout false.

(** [idaapi.askstr(hist, defval, prompt)]: the text the user typed, [None]
    when the dialog is cancelled. *)
Definition askstr (env : Env) (hist : Z) (defval prompt : string)
  : M (option string) :=
  log (EvAskStr hist defval prompt) ;;; ret (askstr_answer env).

(** [idaapi.asklong(defval, prompt)]: the number the user typed, [None]
    when the dialog is cancelled. *)
Definition asklong (env : Env) (defval : Z) (prompt : string)
  : M (option Z) :=
  log (EvAskLong defval prompt) ;;; ret (asklong_answer env).

(** [idc.GetFunctionName(addr)]. *)
Definition GetFunctionName (env : Env) (addr : Z) : M string :=
  log (EvGetFunctionName addr) ;;; ret (function_name env addr).

(** [idc.ScreenEA()]: the address under the cursor, now. *)
Definition get_ScreenEA : M Z := fun w => (inr (ScreenEA w), w).

(** [idaapi.IDAPython_ExecScript(script, globals())]. *)
Definition IDAPython_ExecScript (script : string) : M unit :=
  log (EvExecScript script).

(** [idaapi.refresh_idaview_anyway()]. *)
Definition refresh_idaview_anyway : M unit := log EvRefreshIdaviewAnyway.

(** [idc.Refresh()]. *)
Definition Refresh : M unit := log EvRefresh.

(** [idc.Fatal(msg)]: the host reports a fatal error; nothing after it
    runs in the call that made it. *)
Definition idc_Fatal {A} (msg : string) : M A :=
  log (EvFatal msg) ;;; raise (Fatal msg).

(** ** Temporary files *)

(** Modelled from the spec: [BapIda.tmpfile] is inherited from
    [bap.utils.run], which is not part of the sources. It allocates a new
    file, open and empty, and returns the file object. *)
Definition tmpfile (env : Env) (suffix : string) : M File.t :=
  fun w =>
    let h := length (files w) in
    let p := tmpname env h suffix in
    bind (set_files (files w ++ [ {| File.path := p; File.data := "";
                                     File.closed := false |} ]))
         (fun _ => ret {| File.handle := h; File.name := p |}) w.

(** [f.write(s)]: appends to an open file; a closed file refuses. *)
Definition write (f : File.t) (s : string) : M unit :=
  fun w =>
    match files w !! File.handle f with
    | Some st =>
        if File.closed st
        then raise (ValueError "I/O operation on closed file") w
        else set_files (<[File.handle f :=
                           {| File.path := File.path st;
                              File.data := File.data st +:+ s;
                              File.closed := false |}]> (files w)) w
    | None => raise (ValueError "I/O operation on closed file") w
    end.

(** [f.close()]: closing twice is allowed. *)
Definition close (f : File.t) : M unit :=
  fun w =>
    match files w !! File.handle f with
    | Some st =>
        set_files (<[File.handle f :=
                      {| File.path := File.path st;
                         File.data := File.data st;
                         File.closed := true |}]> (files w)) w
    | None => ret tt w
    end.

(** ** Module constants *)

Definition patterns : list (string * string) :=
  [ ("true", "gray");
    ("is-visited", "white");
    ("has-taints", "red");
    ("taints", "yellow") ].

Definition ENGINE_HISTORY : Z := 117342.

Definition ask_engine : string :=
  "What engine would you like, primus or legacy?".
Definition ask_depth : string :=
  "For how many RTL instructions to propagate?".

Definition newline : string := String (ascii_of_nat 10) "".

(** ** The session builder: [class PropagateTaint(BapIda)] *)

Definition ENGINE : string := "primus".
Definition DEPTH : Z := 4096.
Definition LOOP_DEPTH : Z := 64.

(** The attributes [__init__] sets on the session. *)
Record PropagateTaint := {
  action : string;
  passes : list string;
  script : File.t;
  args : list string
}.

(** ['(({0}) (color {1}))\n'.format(pat, color)]. *)
Definition scheme_line (rule : string * string) : string :=
  "((" +:+ fst rule +:+ ") (color " +:+ snd rule +:+ "))" +:+ newline.

(** [PropagateTaint.__init__(self, addr, kind)]. *)
Definition PropagateTaint_init (env : Env) (addr : Z) (kind : string)
  : M PropagateTaint :=
  let self_args := base_args env in
  disable_script_timeout ;;;
  engine_answer <- askstr env ENGINE_HISTORY ENGINE ask_engine ;;
  let engine := or_str engine_answer ENGINE in
  depth_answer <- asklong env DEPTH ask_depth ;;
  let depth := or_long depth_answer DEPTH in
  let loop_depth := LOOP_DEPTH in
  let self_action :=
    "propagating taint from "
    +:+ (if String.eqb kind "ptr" then "*" else "")
    +:+ "0x" +:+ PyFormat.format_X addr in
  let propagate :=
    if String.eqb engine "primus" then "run" else "propagate-taint" in
  let self_passes := ["taint"; propagate; "map-terms"; "emit-ida-script"] in
  self_script <- tmpfile env "py" ;;
  scheme <- tmpfile env "scm" ;;
  stdin <- tmpfile env "stdin" ;;
  stdout <- tmpfile env "stdout" ;;
  for_each patterns (fun rule => write scheme (scheme_line rule)) ;;;
  close scheme ;;;
  name <- GetFunctionName env addr ;;
  let self_args :=
    self_args ++
    [ "--taint-" +:+ kind; "0x" +:+ PyFormat.format_X addr;
      "--passes"; PyFormat.join "," self_passes;
      "--map-terms-using"; File.name scheme;
      "--emit-ida-script-attr"; "color";
      "--emit-ida-script-file"; File.name self_script ] in
  let self_args :=
    if String.eqb engine "primus" then
      self_args ++
      [ "--run-entry-points=" +:+ name;
        "--primus-limit-max-length=" +:+ PyFormat.format_int depth;
        "--primus-limit-max-visited=" +:+ PyFormat.format_int loop_depth;
        "--primus-promiscuous-mode";
        "--primus-greedy-scheduler";
        "--primus-propagate-taint-from-attributes";
        "--primus-propagate-taint-to-attributes";
        "--primus-lisp-channel-redirect=<stdin>:" +:+ File.name stdin
          +:+ ",<stdout>:" +:+ File.name stdout ]
    else self_args in
  ret {| action := self_action; passes := self_passes;
         script := self_script; args := self_args |}.

(** ** The plugin: [class BapTaint(idaapi.plugin_t)] *)

(** Python's [repr] of a byte string: single quotes unless the string has
    a single quote and no double quote; the quote, the backslash and the
    characters outside the printable ASCII range are escaped. *)
Module PyRepr.

Definition hex_lower_digit (k : nat) : ascii :=
  if (k <? 10)%nat then ascii_of_nat (48 + k) else ascii_of_nat (87 + k).

Fixpoint contains (c : ascii) (s : string) : bool :=
  match s with
  | EmptyString => false
  | String c' s' => Ascii.eqb c c' || contains c s'
  end.

Definition backslash : ascii := ascii_of_nat 92.
Definition single_quote : ascii := ascii_of_nat 39.
Definition double_quote : ascii := ascii_of_nat 34.

Definition escape (quote c : ascii) : string :=
  let k := nat_of_ascii c in
  if Ascii.eqb c quote || Ascii.eqb c backslash
  then String backslash (String c "")
  else if (k =? 9)%nat then String backslash "t"
  else if (k =? 10)%nat then String backslash "n"
  else if (k =? 13)%nat then String backslash "r"
  else if (k <? 32)%nat || (127 <=? k)%nat then
    String backslash
      (String "x" (String (hex_lower_digit (k / 16))
                     (String (hex_lower_digit (k mod 16)) "")))
  else String c "".

Fixpoint escape_all (quote : ascii) (s : string) : string :=
  match s with
  | EmptyString => ""
  | String c s' => escape quote c +:+ escape_all quote s'
  end.

Definition repr (s : string) : string :=
  let quote :=
    if contains single_quote s && negb (contains double_quote s)
    then double_quote else single_quote in
  String quote (escape_all quote s +:+ String quote "").

End PyRepr.

(** The class attribute [_callbacks] when the class is created. *)
Definition initial_callbacks : gmap string (list Callback) :=
  {[ "ptr" := []; "reg" := [] ]}.

(** The attributes of a plugin instance. *)
Record BapTaint := { kind : string; wanted_name : string }.

(** [BapTaint.__init__(self, kind)]. *)
Definition BapTaint_init (kind : string) : PyExn + BapTaint :=
  if String.eqb kind "ptr" || String.eqb kind "reg" then
    inr {| kind := kind;
           wanted_name :=
             "BAP: Taint"
             +:+ (if String.eqb kind "ptr" then "pointer" else "value") |}
  else inl AssertionError.

(** Calling a callback: the call is made, then the callback returns or
    raises. *)
Definition call (callback : Callback) (data : Payload) : M unit :=
  log (EvCall (cb_id callback) data) ;;;
  match cb_body callback data with
  | None => ret tt
  | Some msg => raise (CallbackRaised (cb_id callback) msg)
  end.

(** [cls._callbacks[key]]. *)
Definition callbacks_at (key : string) : M (list Callback) :=
  fun w =>
    match _callbacks w !! key with
    | Some l => ret l w
    | None => raise (KeyError key) w
    end.

(** [BapTaint._do_callbacks(cls, ptr_or_reg)]. *)
Definition _do_callbacks (ptr_or_reg : string) : M unit :=
  screen_ea <- get_ScreenEA ;;
  let data := {| ea := screen_ea; ptr_or_reg := ptr_or_reg |} in
  registered <- callbacks_at ptr_or_reg ;;
  for_each registered (fun callback => call callback data).

(** [BapTaint.start(self)]: builds the session; the base class then
    launches the engine, and calls [finish] when the engine is done. *)
Definition start (env : Env) (self : BapTaint) : M PropagateTaint :=
  screen_ea <- get_ScreenEA ;;
  PropagateTaint_init env screen_ea (kind self).

(** [BapTaint.finish(self, bap)]. *)
Definition finish (self : BapTaint) (bap : PropagateTaint) : M unit :=
  IDAPython_ExecScript (File.name (script bap)) ;;;
  refresh_idaview_anyway ;;;
  _do_callbacks (kind self) ;;;
  Refresh.

(** [BapTaint.run(self, arg)]: the host's entry point; [arg] is not
    used. *)
Definition run (env : Env) (self : BapTaint) (arg : Z) : M PropagateTaint :=
  start env self.

(** [BapTaint.install_callback(cls, callback_fn, ptr_or_reg)] when
    [ptr_or_reg] is not [None]: the [elif] and [else] branches. *)
Definition install_callback_as (callback_fn : Callback) (ptr_or_reg : string)
  : M unit :=
  if String.eqb ptr_or_reg "ptr" || String.eqb ptr_or_reg "reg" then
    registered <- callbacks_at ptr_or_reg ;;
    fun w =>
      set_callbacks
        (<[ptr_or_reg := registered ++ [callback_fn]]> (_callbacks w)) w
  else
    idc_Fatal ("Invalid ptr_or_reg value passed " +:+ PyRepr.repr ptr_or_reg).

(** [BapTaint.install_callback(cls, callback_fn, ptr_or_reg=None)]: with
    [None] it calls itself once for ['ptr'] and once for ['reg']. *)
Definition install_callback (callback_fn : Callback)
    (ptr_or_reg : option string) : M unit :=
  match ptr_or_reg with
  | None =>
      install_callback_as callback_fn "ptr" ;;;
      install_callback_as callback_fn "reg"
  | Some k => install_callback_as callback_fn k
  end.

(** ** Vocabulary of the statements *)

(** The lines a list of rules makes. *)
Fixpoint scheme_lines (rules : list (string * string)) : string :=
  match rules with
  | [] => ""
  | rule :: rules' => scheme_line rule +:+ scheme_lines rules'
  end.

(** The text of the colour scheme, rule by rule. *)
Definition scheme_text : string :=
  "((true) (color gray))" +:+ newline +:+
  "((is-visited) (color white))" +:+ newline +:+
  "((has-taints) (color red))" +:+ newline +:+
  "((taints) (color yellow))" +:+ newline.

(** The engine and the trace length a session resolves from the user's
    answers. *)
Definition resolved_engine (env : Env) : string :=
  or_str (askstr_answer env) ENGINE.
Definition resolved_depth (env : Env) : Z :=
  or_long (asklong_answer env) DEPTH.

(** The four files of a session built when [n] files exist already. *)
Definition script_path (env : Env) (n : nat) : string := tmpname env n "py".
Definition scheme_path (env : Env) (n : nat) : string :=
  tmpname env (S n) "scm".
Definition stdin_path (env : Env) (n : nat) : string :=
  tmpname env (S (S n)) "stdin".
Definition stdout_path (env : Env) (n : nat) : string :=
  tmpname env (S (S (S n))) "stdout".

Definition session_files (env : Env) (n : nat) : list File.state :=
  [ {| File.path := script_path env n; File.data := "";
       File.closed := false |};
    {| File.path := scheme_path env n; File.data := scheme_text;
       File.closed := true |};
    {| File.path := stdin_path env n; File.data := "";
       File.closed := false |};
    {| File.path := stdout_path env n; File.data := "";
       File.closed := false |} ].

(** The tokens every session adds, and those a Primus session adds. *)
Definition common_tokens (env : Env) (addr : Z) (kind : string) (n : nat)
  : list string :=
  [ "--taint-" +:+ kind; "0x" +:+ PyFormat.format_X addr;
    "--passes";
    PyFormat.join ","
      [ "taint";
        if String.eqb (resolved_engine env) "primus"
        then "run" else "propagate-taint";
        "map-terms"; "emit-ida-script" ];
    "--map-terms-using"; scheme_path env n;
    "--emit-ida-script-attr"; "color";
    "--emit-ida-script-file"; script_path env n ].

Definition primus_tokens (env : Env) (addr : Z) (n : nat) : list string :=
  [ "--run-entry-points=" +:+ function_name env addr;
    "--primus-limit-max-length="
      +:+ PyFormat.format_int (resolved_depth env);
    "--primus-limit-max-visited=64";
    "--primus-promiscuous-mode";
    "--primus-greedy-scheduler";
    "--primus-propagate-taint-from-attributes";
    "--primus-propagate-taint-to-attributes";
    "--primus-lisp-channel-redirect=<stdin>:" +:+ stdin_path env n
      +:+ ",<stdout>:" +:+ stdout_path env n ].

(** The host calls of the builder, in order. *)
Definition builder_events (addr : Z) : list Event :=
  [ EvDisableScriptTimeout;
    EvAskStr 117342 "primus" "What engine would you like, primus or legacy?";
    EvAskLong 4096 "For how many RTL instructions to propagate?";
    EvGetFunctionName addr ].

Fixpoint count_tokens (p : string -> bool) (l : list string) : nat :=
  match l with
  | [] => 0%nat
  | t :: l' => ((if p t then 1 else 0) + count_tokens p l')%nat
  end.

(** A taint-qualifier token. *)
Definition is_taint_flag (t : string) : bool :=
  String.eqb t "--taint-ptr" || String.eqb t "--taint-reg".

(** A token that belongs to the Primus engine. *)
Definition is_primus_token (t : string) : bool :=
  String.prefix "--primus-" t || String.prefix "--run-entry-points" t.

(** A session to run the theorems on: the user cancels both prompts. *)
Definition example_env : Env :=
  {| askstr_answer := None;
     asklong_answer := None;
     function_name := fun _ => "main";
     base_args := ["bap"; "a.out"];
     tmpname := fun n suffix =>
       "/tmp/bap/ida-bap-" +:+ PyFormat.format_int (Z.of_nat n)
       +:+ "." +:+ suffix |}.

(** The same, with the user asking for the legacy engine. *)
Definition example_env_legacy : Env :=
  {| askstr_answer := Some "legacy";
     asklong_answer := None;
     function_name := function_name example_env;
     base_args := base_args example_env;
     tmpname := tmpname example_env |}.

Definition example_world : World :=
  {| script_timeout := true;
     ScreenEA := 4198400;
     files := [];
     _callbacks := initial_callbacks;
     trace := [] |}.

(** A user who answers the length prompt with a negative number. *)
Definition example_env_negative : Env :=
  {| askstr_answer := askstr_answer example_env;
     asklong_answer := Some (-5);
     function_name := function_name example_env;
     base_args := base_args example_env;
     tmpname := tmpname example_env |}.

(** The host calls that wait for the user. *)
Definition is_prompt (e : Event) : bool :=
  match e with
  | EvAskStr _ _ _ | EvAskLong _ _ => true
  | _ => false
  end.

(** The world after more host calls. *)
Definition with_trace (w : World) (events : list Event) : World :=
  {| script_timeout := script_timeout w; ScreenEA := ScreenEA w;
     files := files w; _callbacks := _callbacks w;
     trace := trace w ++ events |}.

(** The calls a dispatch makes when it goes through [cbs]. *)
Definition call_events (data : Payload) (cbs : list Callback) : list Event :=
  map (fun callback => EvCall (cb_id callback) data) cbs.

(** The payloads a callback was called with, in order. *)
Fixpoint calls_of (id : nat) (events : list Event) : list Payload :=
  match events with
  | [] => []
  | EvCall id' data :: events' =>
      if Nat.eqb id id' then data :: calls_of id events'
      else calls_of id events'
  | _ :: events' => calls_of id events'
  end.

(** Two callbacks to run the theorems on: one raises, one returns. *)
Definition raiser : Callback :=
  {| cb_id := 1; cb_body := fun _ => Some "boom" |}.
Definition observer : Callback :=
  {| cb_id := 2; cb_body := fun _ => None |}.

(** A world where [raiser], then [observer], are registered for ['ptr']. *)
Definition example_registered : World :=
  {| script_timeout := true;
     ScreenEA := 4198400;
     files := [];
     _callbacks := {[ "ptr" := [raiser; observer]; "reg" := [] ]};
     trace := [] |}.

(** The world after the registry has been replaced. *)
Definition with_callbacks (w : World) (m : gmap string (list Callback))
  : World :=
  {| script_timeout := script_timeout w; ScreenEA := ScreenEA w;
     files := files w; _callbacks := m; trace := trace w |}.

(** The plugin bound to the register gesture, and a world where
    [observer] is registered for it. *)
Definition example_plugin : BapTaint :=
  {| kind := "reg"; wanted_name := "BAP: Taintvalue" |}.

Definition example_observed : World :=
  {| script_timeout := true;
     ScreenEA := 4198400;
     files := [];
     _callbacks := {[ "ptr" := []; "reg" := [observer] ]};
     trace := [] |}.

(** A sequence of calls of [install_callback], one after the other,
    whatever each of them returns or raises. *)
Fixpoint install_all (calls : list (Callback * option string)) (w : World)
  : World :=
  match calls with
  | [] => w
  | (cb, k) :: calls' => install_all calls' (snd (install_callback cb k w))
  end.

(** Whether a call of [install_callback] with this [ptr_or_reg] registers
    for the bucket [bucket]. *)
Definition registers_for (bucket : string) (k : option string) : bool :=
  match k with
  | None => true
  | Some k' => String.eqb k' bucket
  end.

(** The callbacks a sequence of calls registers for a bucket, in the order
    of the calls. *)
Fixpoint registered_by (bucket : string)
    (calls : list (Callback * option string)) : list Callback :=
  match calls with
  | [] => []
  | (cb, k) :: calls' =>
      if registers_for bucket k then cb :: registered_by bucket calls'
      else registered_by bucket calls'
  end.


(** How many times the display refresh [idc.Refresh()] was requested. *)
Fixpoint refreshes (events : list Event) : nat :=
  match events with
  | [] => 0%nat
  | EvRefresh :: events' => S (refreshes events')
  | _ :: events' => refreshes events'
  end.

(** * Verification *)

(** ** Formatting, on examples *)

Example format_X_401000 : PyFormat.format_X 4198400 = "401000".
Proof. reflexivity. Qed.

Example format_X_upper : PyFormat.format_X 48879 = "BEEF".
Proof. reflexivity. Qed.

Example format_X_zero : PyFormat.format_X 0 = "0".
Proof. reflexivity. Qed.

Example format_X_negative : PyFormat.format_X (-26) = "-1A".
Proof. reflexivity. Qed.

Example format_int_4096 : PyFormat.format_int 4096 = "4096".
Proof. reflexivity. Qed.

Example format_int_negative : PyFormat.format_int (-5) = "-5".
Proof. reflexivity. Qed.

Example join_passes :
  PyFormat.join "," ["taint"; "run"; "map-terms"; "emit-ida-script"]
  = "taint,run,map-terms,emit-ida-script".
Proof. reflexivity. Qed.

Example repr_bogus : PyRepr.repr "bogus" = "'bogus'".
Proof. reflexivity. Qed.

(** The session of the defaults: the cursor at 0x401000, the register
    gesture, both prompts cancelled. *)
Example session_of_defaults :
  fst (PropagateTaint_init example_env 4198400 "reg" example_world) =
  inr {| action := "propagating taint from 0x401000";
         passes := ["taint"; "run"; "map-terms"; "emit-ida-script"];
         script := {| File.handle := 0;
                      File.name := "/tmp/bap/ida-bap-0.py" |};
         args :=
           [ "bap"; "a.out";
             "--taint-reg"; "0x401000";
             "--passes"; "taint,run,map-terms,emit-ida-script";
             "--map-terms-using"; "/tmp/bap/ida-bap-1.scm";
             "--emit-ida-script-attr"; "color";
             "--emit-ida-script-file"; "/tmp/bap/ida-bap-0.py";
             "--run-entry-points=main";
             "--primus-limit-max-length=4096";
             "--primus-limit-max-visited=64";
             "--primus-promiscuous-mode";
             "--primus-greedy-scheduler";
             "--primus-propagate-taint-from-attributes";
             "--primus-propagate-taint-to-attributes";
             "--primus-lisp-channel-redirect=<stdin>:/tmp/bap/ida-bap-2.stdin,<stdout>:/tmp/bap/ida-bap-3.stdout" ] |}.
Proof. vm_compute. reflexivity. Qed.

(** The same with the pointer gesture and the answer [legacy]. *)
Example session_of_legacy :
  fst (PropagateTaint_init example_env_legacy 4198400 "ptr" example_world) =
  inr {| action := "propagating taint from *0x401000";
         passes := ["taint"; "propagate-taint"; "map-terms";
                    "emit-ida-script"];
         script := {| File.handle := 0;
                      File.name := "/tmp/bap/ida-bap-0.py" |};
         args :=
           [ "bap"; "a.out";
             "--taint-ptr"; "0x401000";
             "--passes"; "taint,propagate-taint,map-terms,emit-ida-script";
             "--map-terms-using"; "/tmp/bap/ida-bap-1.scm";
             "--emit-ida-script-attr"; "color";
             "--emit-ida-script-file"; "/tmp/bap/ida-bap-0.py" ] |}.
Proof. vm_compute. reflexivity. Qed.

(** ** Running the monad *)

Lemma bind_ok {A B} (m : M A) (k : A -> M B) w a w' :
  m w = (inr a, w') -> bind m k w = k a w'.
Proof. intros H. unfold bind. now rewrite H. Qed.

Lemma bind_raise {A B} (m : M A) (k : A -> M B) w e w' :
  m w = (inl e, w') -> bind m k w = (inl e, w').
Proof. intros H. unfold bind. now rewrite H. Qed.

Lemma bind_assoc {A B C} (m : M A) (f : A -> M B) (g : B -> M C) w :
  bind (bind m f) g w = bind m (fun x => bind (f x) g) w.
Proof. unfold bind. destruct (m w) as [[e | a] w']; reflexivity. Qed.

(** ** Temporary files *)

Lemma write_middle (f : File.t) (s : string) (w : World) pre st post :
  files w = pre ++ st :: post ->
  File.handle f = length pre ->
  File.closed st = false ->
  write f s w =
  (inr tt,
   {| script_timeout := script_timeout w; ScreenEA := ScreenEA w;
      files := pre ++ {| File.path := File.path st;
                         File.data := File.data st +:+ s;
                         File.closed := false |} :: post;
      _callbacks := _callbacks w; trace := trace w |}).
Proof.
  intros Hfiles Hh Hopen. unfold write.
  rewrite Hfiles, Hh, list_lookup_middle by reflexivity.
  rewrite Hopen. unfold set_files. do 2 f_equal.
  replace (length pre) with (length pre + 0)%nat by lia.
  now rewrite insert_app_r.
Qed.

Lemma close_middle (f : File.t) (w : World) pre st post :
  files w = pre ++ st :: post ->
  File.handle f = length pre ->
  close f w =
  (inr tt,
   {| script_timeout := script_timeout w; ScreenEA := ScreenEA w;
      files := pre ++ {| File.path := File.path st;
                         File.data := File.data st;
                         File.closed := true |} :: post;
      _callbacks := _callbacks w; trace := trace w |}).
Proof.
  intros Hfiles Hh. unfold close.
  rewrite Hfiles, Hh, list_lookup_middle by reflexivity.
  unfold set_files. do 2 f_equal.
  replace (length pre) with (length pre + 0)%nat by lia.
  now rewrite insert_app_r.
Qed.

Lemma append_cons (x : ascii) (a b : string) :
  String x a +:+ b = String x (a +:+ b).
Proof. reflexivity. Qed.

Lemma append_assoc (a b c : string) : (a +:+ b) +:+ c = a +:+ (b +:+ c).
Proof.
  induction a as [| x a IH]; [ reflexivity | ].
  now rewrite !append_cons, IH.
Qed.

Lemma append_empty_r (a : string) : a +:+ "" = a.
Proof.
  induction a as [| x a IH]; [ reflexivity | ].
  now rewrite append_cons, IH.
Qed.

(** The loop over the rules appends their lines, in order, to an open
    file. *)
Lemma write_rules (f : File.t) rules : forall (w : World) pre st post,
  files w = pre ++ st :: post ->
  File.handle f = length pre ->
  File.closed st = false ->
  for_each rules (fun rule => write f (scheme_line rule)) w =
  (inr tt,
   {| script_timeout := script_timeout w; ScreenEA := ScreenEA w;
      files := pre ++ {| File.path := File.path st;
                         File.data := File.data st +:+ scheme_lines rules;
                         File.closed := false |} :: post;
      _callbacks := _callbacks w; trace := trace w |}).
Proof.
  induction rules as [| rule rules IH]; intros w pre st post Hfiles Hh Hopen.
  - simpl. rewrite append_empty_r. unfold ret.
    destruct w as [t c fs cbs tr], st as [p d cl]; simpl in *.
    now subst.
  - simpl for_each.
    erewrite bind_ok by (eapply write_middle; eassumption).
    erewrite IH; [ | reflexivity | assumption | reflexivity ].
    simpl. now rewrite append_assoc.
Qed.

Lemma scheme_lines_patterns : scheme_lines patterns = scheme_text.
Proof. reflexivity. Qed.

(** Writing the rules into a file that is open and empty, then closing
    it. *)
Lemma write_scheme (f : File.t) (w : World) pre p post :
  files w = pre ++ {| File.path := p; File.data := "";
                      File.closed := false |} :: post ->
  File.handle f = length pre ->
  bind (for_each patterns (fun rule => write f (scheme_line rule)))
       (fun _ => close f) w =
  (inr tt,
   {| script_timeout := script_timeout w; ScreenEA := ScreenEA w;
      files := pre ++ {| File.path := p; File.data := scheme_text;
                         File.closed := true |} :: post;
      _callbacks := _callbacks w; trace := trace w |}).
Proof.
  intros Hfiles Hh.
  erewrite bind_ok by (eapply write_rules; [ eassumption | assumption | reflexivity ]).
  erewrite close_middle; [ | reflexivity | assumption ].
  reflexivity.
Qed.

(** ** The session builder, run *)

(** The builder never raises; this is the session it returns and the
    world it leaves. *)
Lemma PropagateTaint_init_run (env : Env) (addr : Z) (kind : string)
    (w : World) :
  PropagateTaint_init env addr kind w =
  (inr {| action :=
            "propagating taint from "
            +:+ (if String.eqb kind "ptr" then "*" else "")
            +:+ "0x" +:+ PyFormat.format_X addr;
          passes :=
            [ "taint";
              if String.eqb (resolved_engine env) "primus"
              then "run" else "propagate-taint";
              "map-terms"; "emit-ida-script" ];
          script := {| File.handle := length (files w);
                       File.name := script_path env (length (files w)) |};
          args :=
            base_args env
            ++ common_tokens env addr kind (length (files w))
            ++ (if String.eqb (resolved_engine env) "primus"
                then primus_tokens env addr (length (files w)) else []) |},
   {| script_timeout := false; ScreenEA := ScreenEA w;
      files := files w ++ session_files env (length (files w));
      _callbacks := _callbacks w;
      trace := trace w ++ builder_events addr |}).
Proof.
  unfold PropagateTaint_init, disable_script_timeout, askstr, asklong.
  rewrite !bind_assoc.
  unfold tmpfile, GetFunctionName, log, set_script_timeout, set_files.
  cbv [bind ret]. cbn [files script_timeout ScreenEA _callbacks trace].
  rewrite !length_app. cbn [length].
  rewrite <- !app_assoc. cbn [app].
  match goal with
  | |- context [ for_each patterns ?body ?w0 ] =>
      pose proof (write_rules
        {| File.handle := (length (files w) + 1)%nat;
           File.name := tmpname env (length (files w) + 1)%nat "scm" |}
        patterns w0
        (files w ++ [ {| File.path := tmpname env (length (files w)) "py";
                         File.data := ""; File.closed := false |} ])
        {| File.path := tmpname env (length (files w) + 1)%nat "scm";
           File.data := ""; File.closed := false |}
        [ {| File.path := tmpname env (length (files w) + 1 + 1)%nat "stdin";
             File.data := ""; File.closed := false |};
          {| File.path :=
               tmpname env (length (files w) + 1 + 1 + 1)%nat "stdout";
             File.data := ""; File.closed := false |} ]) as Hw
  end.
  cbn [files File.handle File.closed File.path File.data
       script_timeout ScreenEA _callbacks trace] in Hw.
  rewrite <- !app_assoc in Hw. cbn [app] in Hw.
  rewrite length_app in Hw. cbn [length] in Hw.
  rewrite Hw by reflexivity. clear Hw.
  erewrite close_middle with
    (pre := files w ++ [ {| File.path := tmpname env (length (files w)) "py";
                            File.data := ""; File.closed := false |} ]);
    [ | cbn [files]; rewrite <- app_assoc; reflexivity
      | cbn [File.handle]; rewrite length_app; reflexivity ].
  cbn [files File.handle File.closed File.path File.data
       script_timeout ScreenEA _callbacks trace].
  unfold common_tokens, primus_tokens, session_files, builder_events.
  unfold resolved_engine, resolved_depth, script_path, scheme_path,
    stdin_path, stdout_path, ENGINE_HISTORY, ENGINE, DEPTH, LOOP_DEPTH,
    ask_engine, ask_depth.
  replace (length (files w) + 1)%nat with (S (length (files w))) by lia.
  replace (S (length (files w)) + 1)%nat with (S (S (length (files w))))
    by lia.
  replace (S (S (length (files w))) + 1)%nat
    with (S (S (S (length (files w))))) by lia.
  rewrite <- !app_assoc. cbn [app].
  destruct (String.eqb (or_str (askstr_answer env) "primus") "primus");
    rewrite <- ?app_assoc; reflexivity.
Qed.

(** ** Hexadecimal rendering *)

Lemma hex_upper_value_digit (k : Z) :
  0 <= k < 16 ->
  PyFormat.hex_upper_value (PyFormat.hex_upper_digit k) = Some k.
Proof.
  intros Hk.
  assert (Hcases : k = 0 \/ k = 1 \/ k = 2 \/ k = 3 \/ k = 4 \/ k = 5 \/
                   k = 6 \/ k = 7 \/ k = 8 \/ k = 9 \/ k = 10 \/ k = 11 \/
                   k = 12 \/ k = 13 \/ k = 14 \/ k = 15) by lia.
  repeat (destruct Hcases as [-> | Hcases]; [ reflexivity | ]).
  subst k. reflexivity.
Qed.

(** The digits pushed in front of [acc] read back, from the left, as
    [n]. *)
Lemma hex_upper_digits_parse (fuel : nat) : forall (n : Z) (acc : string),
  0 <= n < 16 ^ Z.of_nat fuel ->
  exists ds : string,
    PyFormat.hex_upper_digits fuel n acc = ds +:+ acc /\
    forall (rest : string) (a : Z),
      PyFormat.parse_hex_upper (ds +:+ rest) a =
      PyFormat.parse_hex_upper rest
        (a * 16 ^ Z.of_nat (String.length ds) + n).
Proof.
  induction fuel as [| fuel IH]; intros n acc Hn.
  - exists "". split; [ reflexivity | ].
    intros rest a. change (16 ^ Z.of_nat 0) with 1 in Hn.
    cbn [String.length]. change ("" +:+ rest) with rest.
    f_equal. change (16 ^ Z.of_nat 0) with 1. lia.
  - cbn [PyFormat.hex_upper_digits].
    assert (Hmod : 0 <= n mod 16 < 16) by (apply Z.mod_pos_bound; lia).
    destruct (n / 16 =? 0) eqn:Hq.
    + apply Z.eqb_eq in Hq.
      exists (String (PyFormat.hex_upper_digit (n mod 16)) "").
      split; [ reflexivity | ].
      intros rest a. rewrite append_cons. cbn [PyFormat.parse_hex_upper].
      rewrite hex_upper_value_digit by assumption.
      change ("" +:+ rest) with rest. f_equal.
      cbn [String.length]. change (16 ^ Z.of_nat 1) with 16.
      pose proof (Z.div_mod n 16). lia.
    + apply Z.eqb_neq in Hq.
      destruct (IH (n / 16)
                  (String (PyFormat.hex_upper_digit (n mod 16)) acc))
        as (ds & Hds & Hparse).
      { split; [ apply Z.div_pos; lia | ].
        apply Z.div_lt_upper_bound; [ lia | ].
        rewrite Nat2Z.inj_succ, Z.pow_succ_r in Hn by lia. lia. }
      exists (ds +:+ String (PyFormat.hex_upper_digit (n mod 16)) "").
      split.
      * rewrite Hds, append_assoc. reflexivity.
      * intros rest a. rewrite append_assoc, Hparse.
        rewrite append_cons. cbn [PyFormat.parse_hex_upper].
        rewrite hex_upper_value_digit by assumption.
        change ("" +:+ rest) with rest. f_equal.
        assert (Hlen : String.length
                         (ds +:+ String (PyFormat.hex_upper_digit (n mod 16)) "")
                       = S (String.length ds)).
        { clear. induction ds as [| c ds IHds]; [ reflexivity | ].
          rewrite append_cons. cbn [String.length]. now rewrite IHds. }
        rewrite Hlen, Nat2Z.inj_succ, Z.pow_succ_r by lia.
        pose proof (Z.div_mod n 16). lia.
Qed.

Lemma hex_fuel_enough (n : Z) : 0 <= n -> n < 16 ^ Z.of_nat (PyFormat.hex_fuel n).
Proof.
  intros Hn. unfold PyFormat.hex_fuel.
  rewrite Nat2Z.inj_succ, Z2Nat.id by apply Z.log2_nonneg.
  destruct (Z.eq_dec n 0) as [-> | Hnz].
  - reflexivity.
  - assert (Hlog : n < 2 ^ Z.succ (Z.log2 n)) by (apply Z.log2_spec; lia).
    assert (Hpow : 2 ^ Z.succ (Z.log2 n) <= 16 ^ Z.succ (Z.log2 n)).
    { apply Z.pow_le_mono_l. lia. }
    lia.
Qed.

(** ['{:X}'.format(n)] of a non-negative integer is a string of upper-case
    hexadecimal digits whose value is [n]. *)
Lemma format_X_parse (n : Z) :
  0 <= n -> PyFormat.parse_hex_upper (PyFormat.format_X n) 0 = Some n.
Proof.
  intros Hn. unfold PyFormat.format_X.
  destruct (n <? 0) eqn:Hneg; [ apply Z.ltb_lt in Hneg; lia | ].
  destruct (hex_upper_digits_parse (PyFormat.hex_fuel n) n "")
    as (ds & Hds & Hparse).
  { split; [ assumption | now apply hex_fuel_enough ]. }
  rewrite Hds, Hparse. cbn [PyFormat.parse_hex_upper]. reflexivity.
Qed.

(** ** Tokens of the argument sequence *)

Lemma count_tokens_app (p : string -> bool) (l1 l2 : list string) :
  count_tokens p (l1 ++ l2) = (count_tokens p l1 + count_tokens p l2)%nat.
Proof.
  induction l1 as [| t l1 IH]; [ reflexivity | ].
  cbn [app count_tokens]. rewrite IH. lia.
Qed.

(** ** The argument sequence *)

(** C1. For a non-negative address and a kind among ['ptr'] and ['reg'],
    in a setting where neither the base arguments nor the paths of the
    temporary files are taint qualifiers, the builder returns a session
    whose arguments hold exactly one taint-qualifier token; the arguments
    are the base arguments, then [--taint-<kind>], the address as [0x] and
    upper-case hexadecimal digits, [--passes] with the passes [taint],
    [run] (Primus) or [propagate-taint] (Legacy), [map-terms],
    [emit-ida-script] joined by commas, [--map-terms-using] with the path
    of the scheme file, [--emit-ida-script-attr color] and
    [--emit-ida-script-file] with the path of the script file. *)
Theorem session_base_arguments (env : Env) (addr : Z) (kind : string)
    (w : World) :
  0 <= addr ->
  kind = "ptr" \/ kind = "reg" ->
  count_tokens is_taint_flag (base_args env) = 0%nat ->
  is_taint_flag (scheme_path env (length (files w))) = false ->
  is_taint_flag (script_path env (length (files w))) = false ->
  exists (s : PropagateTaint) (w' : World) (scheme : string)
         (tail : list string),
    PropagateTaint_init env addr kind w = (inr s, w') /\
    count_tokens is_taint_flag (args s) = 1%nat /\
    args s =
      base_args env ++
      [ "--taint-" +:+ kind; "0x" +:+ PyFormat.format_X addr;
        "--passes"; PyFormat.join "," (passes s);
        "--map-terms-using"; scheme;
        "--emit-ida-script-attr"; "color";
        "--emit-ida-script-file"; File.name (script s) ] ++ tail /\
    PyFormat.parse_hex_upper (PyFormat.format_X addr) 0 = Some addr /\
    passes s =
      [ "taint";
        if String.eqb (resolved_engine env) "primus"
        then "run" else "propagate-taint";
        "map-terms"; "emit-ida-script" ] /\
    files w' !! S (length (files w)) =
      Some {| File.path := scheme; File.data := scheme_text;
              File.closed := true |} /\
    files w' !! File.handle (script s) =
      Some {| File.path := File.name (script s); File.data := "";
              File.closed := false |}.
Proof.
  intros Haddr Hkind Hbase Hscheme Hscript.
  rewrite PropagateTaint_init_run.
  eexists _, _, (scheme_path env (length (files w))), _.
  split; [ reflexivity | ].
  cbn [args passes script File.name File.handle files].
  split; [ | split; [ | split; [ | split; [ | split ] ] ] ].
  - rewrite !count_tokens_app, Hbase.
    assert (Htail : count_tokens is_taint_flag
                      (if String.eqb (resolved_engine env) "primus"
                       then primus_tokens env addr (length (files w))
                       else []) = 0%nat).
    { destruct (String.eqb (resolved_engine env) "primus"); reflexivity. }
    rewrite Htail. unfold common_tokens. cbn [count_tokens].
    rewrite Hscheme, Hscript.
    destruct Hkind as [-> | ->];
      destruct (String.eqb (resolved_engine env) "primus"); reflexivity.
  - reflexivity.
  - now apply format_X_parse.
  - reflexivity.
  - rewrite lookup_app_r by lia.
    replace (S (length (files w)) - length (files w))%nat with 1%nat by lia.
    reflexivity.
  - rewrite lookup_app_r by lia.
    replace (length (files w) - length (files w))%nat with 0%nat by lia.
    reflexivity.
Qed.

Lemma session_base_arguments_witness :
  exists (s : PropagateTaint) (w' : World) (scheme : string)
         (tail : list string),
    PropagateTaint_init example_env 4198400 "reg" example_world = (inr s, w') /\
    count_tokens is_taint_flag (args s) = 1%nat /\
    args s =
      base_args example_env ++
      [ "--taint-" +:+ "reg"; "0x" +:+ PyFormat.format_X 4198400;
        "--passes"; PyFormat.join "," (passes s);
        "--map-terms-using"; scheme;
        "--emit-ida-script-attr"; "color";
        "--emit-ida-script-file"; File.name (script s) ] ++ tail /\
    PyFormat.parse_hex_upper (PyFormat.format_X 4198400) 0 = Some 4198400 /\
    passes s =
      [ "taint";
        if String.eqb (resolved_engine example_env) "primus"
        then "run" else "propagate-taint";
        "map-terms"; "emit-ida-script" ] /\
    files w' !! S (length (files example_world)) =
      Some {| File.path := scheme; File.data := scheme_text;
              File.closed := true |} /\
    files w' !! File.handle (script s) =
      Some {| File.path := File.name (script s); File.data := "";
              File.closed := false |}.
Proof.
  apply (session_base_arguments example_env 4198400 "reg" example_world);
    [ lia | right; reflexivity | reflexivity | reflexivity | reflexivity ].
Defined.

(** C2. In a setting where neither the base arguments nor the paths of
    the scheme and script files are Primus tokens: when the resolved
    engine is Primus, the arguments end with [--run-entry-points=] and
    the name of the function at the address, [--primus-limit-max-length=]
    and the resolved length, [--primus-limit-max-visited=64], the
    promiscuous-mode, greedy-scheduler and two propagate-taint flags, and
    the channel redirect naming the stdin and stdout files this session
    allocated; otherwise no argument starts with [--primus-] or
    [--run-entry-points]. *)
Theorem session_engine_arguments (env : Env) (addr : Z) (kind : string)
    (w : World) :
  count_tokens is_primus_token (base_args env) = 0%nat ->
  is_primus_token (scheme_path env (length (files w))) = false ->
  is_primus_token (script_path env (length (files w))) = false ->
  exists (s : PropagateTaint) (w' : World),
    PropagateTaint_init env addr kind w = (inr s, w') /\
    if String.eqb (resolved_engine env) "primus" then
      exists (front : list string) (stdin stdout : string),
        args s =
          front ++
          [ "--run-entry-points=" +:+ function_name env addr;
            "--primus-limit-max-length="
              +:+ PyFormat.format_int (resolved_depth env);
            "--primus-limit-max-visited=64";
            "--primus-promiscuous-mode";
            "--primus-greedy-scheduler";
            "--primus-propagate-taint-from-attributes";
            "--primus-propagate-taint-to-attributes";
            "--primus-lisp-channel-redirect=<stdin>:" +:+ stdin
              +:+ ",<stdout>:" +:+ stdout ] /\
        count_tokens is_primus_token front = 0%nat /\
        files w !! S (S (length (files w))) = None /\
        files w' !! S (S (length (files w))) =
          Some {| File.path := stdin; File.data := "";
                  File.closed := false |} /\
        files w !! S (S (S (length (files w)))) = None /\
        files w' !! S (S (S (length (files w)))) =
          Some {| File.path := stdout; File.data := "";
                  File.closed := false |}
    else count_tokens is_primus_token (args s) = 0%nat.
Proof.
  intros Hbase Hscheme Hscript.
  rewrite PropagateTaint_init_run.
  eexists _, _. split; [ reflexivity | ].
  cbn [args files].
  assert (Hcommon : count_tokens is_primus_token
                      (base_args env
                       ++ common_tokens env addr kind (length (files w)))
                    = 0%nat).
  { rewrite count_tokens_app, Hbase. unfold common_tokens.
    cbn [count_tokens]. rewrite Hscheme, Hscript.
    destruct (String.eqb (resolved_engine env) "primus"); reflexivity. }
  destruct (String.eqb (resolved_engine env) "primus").
  - exists (base_args env ++ common_tokens env addr kind (length (files w))),
      (stdin_path env (length (files w))),
      (stdout_path env (length (files w))).
    split; [ now rewrite app_assoc | ].
    split; [ exact Hcommon | ].
    split; [ apply lookup_ge_None; lia | ].
    split.
    { rewrite lookup_app_r by lia.
      replace (S (S (length (files w))) - length (files w))%nat
        with 2%nat by lia.
      reflexivity. }
    split; [ apply lookup_ge_None; lia | ].
    rewrite lookup_app_r by lia.
    replace (S (S (S (length (files w)))) - length (files w))%nat
      with 3%nat by lia.
    reflexivity.
  - rewrite app_nil_r. exact Hcommon.
Qed.

Lemma session_engine_arguments_witness :
  (exists (s : PropagateTaint) (w' : World),
     PropagateTaint_init example_env 4198400 "reg" example_world
     = (inr s, w') /\
     exists (front : list string) (stdin stdout : string),
       args s =
         front ++
         [ "--run-entry-points=main";
           "--primus-limit-max-length=4096";
           "--primus-limit-max-visited=64";
           "--primus-promiscuous-mode";
           "--primus-greedy-scheduler";
           "--primus-propagate-taint-from-attributes";
           "--primus-propagate-taint-to-attributes";
           "--primus-lisp-channel-redirect=<stdin>:" +:+ stdin
             +:+ ",<stdout>:" +:+ stdout ] /\
       count_tokens is_primus_token front = 0%nat /\
       files example_world !! 2%nat = None /\
       files w' !! 2%nat =
         Some {| File.path := stdin; File.data := "";
                 File.closed := false |} /\
       files example_world !! 3%nat = None /\
       files w' !! 3%nat =
         Some {| File.path := stdout; File.data := "";
                 File.closed := false |}) /\
  (exists (s : PropagateTaint) (w' : World),
     PropagateTaint_init example_env_legacy 4198400 "ptr" example_world
     = (inr s, w') /\
     count_tokens is_primus_token (args s) = 0%nat).
Proof.
  split.
  - apply (session_engine_arguments example_env 4198400 "reg" example_world);
      reflexivity.
  - apply (session_engine_arguments example_env_legacy 4198400 "ptr"
             example_world); reflexivity.
Defined.

(** ** The colour scheme *)

(** C3. Whatever the session, when the builder returns the file named
    after [--map-terms-using] is closed and holds the four rules, one per
    line, in the order true/gray, is-visited/white, has-taints/red,
    taints/yellow; two sessions write the same bytes. *)
Theorem scheme_file_contents (env1 env2 : Env) (addr1 addr2 : Z)
    (kind1 kind2 : string) (w1 w2 : World) :
  exists (s1 s2 : PropagateTaint) (w1' w2' : World) (f1 f2 : File.state)
         (front1 tail1 front2 tail2 : list string),
    PropagateTaint_init env1 addr1 kind1 w1 = (inr s1, w1') /\
    PropagateTaint_init env2 addr2 kind2 w2 = (inr s2, w2') /\
    files w1' !! S (length (files w1)) = Some f1 /\
    files w2' !! S (length (files w2)) = Some f2 /\
    args s1 = front1 ++ "--map-terms-using" :: File.path f1 :: tail1 /\
    args s2 = front2 ++ "--map-terms-using" :: File.path f2 :: tail2 /\
    File.closed f1 = true /\
    File.closed f2 = true /\
    File.data f1 =
      "((true) (color gray))" +:+ newline +:+
      "((is-visited) (color white))" +:+ newline +:+
      "((has-taints) (color red))" +:+ newline +:+
      "((taints) (color yellow))" +:+ newline /\
    File.data f2 = File.data f1.
Proof.
  rewrite !PropagateTaint_init_run.
  eexists _, _, _, _.
  exists {| File.path := scheme_path env1 (length (files w1));
            File.data := scheme_text; File.closed := true |},
         {| File.path := scheme_path env2 (length (files w2));
            File.data := scheme_text; File.closed := true |}.
  eexists (base_args env1 ++ [_; _; _; _]), _,
          (base_args env2 ++ [_; _; _; _]), _.
  split; [ reflexivity | ]. split; [ reflexivity | ].
  cbn [args files File.path File.closed File.data].
  split.
  { rewrite lookup_app_r by lia.
    replace (S (length (files w1)) - length (files w1))%nat with 1%nat
      by lia.
    reflexivity. }
  split.
  { rewrite lookup_app_r by lia.
    replace (S (length (files w2)) - length (files w2))%nat with 1%nat
      by lia.
    reflexivity. }
  split; [ rewrite <- app_assoc; reflexivity | ].
  split; [ rewrite <- app_assoc; reflexivity | ].
  repeat (split; [ reflexivity | ]). reflexivity.
Qed.

(** ** The engine *)

(** C10. An answer to the engine prompt that is neither empty nor exactly
    [primus] selects the legacy pipeline: the passes use
    [propagate-taint], and the arguments are the base arguments followed
    by the ten common tokens and nothing else. *)
Theorem engine_compared_exactly (env : Env) (addr : Z) (kind : string)
    (w : World) (answer : string) :
  askstr_answer env = Some answer ->
  answer <> "" ->
  answer <> "primus" ->
  exists (s : PropagateTaint) (w' : World) (scheme : string),
    PropagateTaint_init env addr kind w = (inr s, w') /\
    passes s = ["taint"; "propagate-taint"; "map-terms"; "emit-ida-script"] /\
    args s =
      base_args env ++
      [ "--taint-" +:+ kind; "0x" +:+ PyFormat.format_X addr;
        "--passes"; "taint,propagate-taint,map-terms,emit-ida-script";
        "--map-terms-using"; scheme;
        "--emit-ida-script-attr"; "color";
        "--emit-ida-script-file"; File.name (script s) ].
Proof.
  intros Hanswer Hnonempty Hother.
  rewrite PropagateTaint_init_run.
  assert (Hengine : String.eqb (resolved_engine env) "primus" = false).
  { unfold resolved_engine, or_str. rewrite Hanswer.
    apply String.eqb_neq in Hnonempty. rewrite Hnonempty.
    now apply String.eqb_neq. }
  eexists _, _, _. split; [ reflexivity | ].
  cbn [args passes script File.name]. unfold common_tokens.
  rewrite Hengine, app_nil_r. split; reflexivity.
Qed.

Lemma engine_compared_exactly_witness :
  exists (s : PropagateTaint) (w' : World) (scheme : string),
    PropagateTaint_init
      {| askstr_answer := Some "Primus";
         asklong_answer := asklong_answer example_env;
         function_name := function_name example_env;
         base_args := base_args example_env;
         tmpname := tmpname example_env |}
      4198400 "ptr" example_world = (inr s, w') /\
    passes s = ["taint"; "propagate-taint"; "map-terms"; "emit-ida-script"] /\
    args s =
      ["bap"; "a.out"] ++
      [ "--taint-" +:+ "ptr"; "0x" +:+ PyFormat.format_X 4198400;
        "--passes"; "taint,propagate-taint,map-terms,emit-ida-script";
        "--map-terms-using"; scheme;
        "--emit-ida-script-attr"; "color";
        "--emit-ida-script-file"; File.name (script s) ].
Proof.
  apply (engine_compared_exactly
           {| askstr_answer := Some "Primus";
              asklong_answer := asklong_answer example_env;
              function_name := function_name example_env;
              base_args := base_args example_env;
              tmpname := tmpname example_env |}
           4198400 "ptr" example_world "Primus");
    [ reflexivity | discriminate | discriminate ].
Defined.

(** ** Parameter resolution *)

(** C4, as stated, fails: a negative answer to the length prompt is kept,
    and reaches the engine's arguments. *)
Lemma negative_length_is_kept :
  exists (s : PropagateTaint) (w' : World),
    PropagateTaint_init example_env_negative 4198400 "reg" example_world
    = (inr s, w') /\
    In "--primus-limit-max-length=-5" (args s) /\
    resolved_depth example_env_negative = -5 /\
    ~ 0 < resolved_depth example_env_negative.
Proof.
  rewrite PropagateTaint_init_run. eexists _, _.
  split; [ reflexivity | ].
  split; [ vm_compute; tauto | ].
  split; [ reflexivity | ].
  vm_compute. discriminate.
Qed.

(** C4, amended. Whatever the user answers, the builder returns a
    session. A cancelled or empty engine answer resolves to Primus; a
    cancelled or zero length answer resolves to 4096 and any other length
    answer is kept, so the resolved length is never zero and is positive
    unless the answer was negative. The builder prompts twice, never for
    the loop bound, which is 64. *)
Theorem parameter_resolution (env : Env) (addr : Z) (kind : string)
    (w : World) :
  exists (s : PropagateTaint) (w' : World) (engine : string) (depth : Z)
         (front : list string) (stdin stdout : string),
    PropagateTaint_init env addr kind w = (inr s, w') /\
    trace w' =
      trace w ++
      [ EvDisableScriptTimeout;
        EvAskStr 117342 "primus"
          "What engine would you like, primus or legacy?";
        EvAskLong 4096 "For how many RTL instructions to propagate?";
        EvGetFunctionName addr ] /\
    engine = resolved_engine env /\
    depth = resolved_depth env /\
    (askstr_answer env = None \/ askstr_answer env = Some "" ->
     engine = "primus") /\
    (asklong_answer env = None \/ asklong_answer env = Some 0 ->
     depth = 4096) /\
    (forall n : Z, asklong_answer env = Some n -> n <> 0 -> depth = n) /\
    depth <> 0 /\
    ((forall n : Z, asklong_answer env = Some n -> 0 <= n) -> 0 < depth) /\
    (engine = "primus" ->
     args s =
       front ++
       [ "--run-entry-points=" +:+ function_name env addr;
         "--primus-limit-max-length=" +:+ PyFormat.format_int depth;
         "--primus-limit-max-visited=64";
         "--primus-promiscuous-mode";
         "--primus-greedy-scheduler";
         "--primus-propagate-taint-from-attributes";
         "--primus-propagate-taint-to-attributes";
         "--primus-lisp-channel-redirect=<stdin>:" +:+ stdin
           +:+ ",<stdout>:" +:+ stdout ]).
Proof.
  rewrite PropagateTaint_init_run.
  eexists _, _, (resolved_engine env), (resolved_depth env),
    (base_args env ++ common_tokens env addr kind (length (files w))),
    (stdin_path env (length (files w))),
    (stdout_path env (length (files w))).
  split; [ reflexivity | ]. cbn [trace args].
  split; [ reflexivity | ].
  split; [ reflexivity | ]. split; [ reflexivity | ].
  unfold resolved_engine, resolved_depth, or_str, or_long, ENGINE, DEPTH.
  split; [ intros [-> | ->]; reflexivity | ].
  split; [ intros [-> | ->]; reflexivity | ].
  split.
  { intros n -> Hn. apply Z.eqb_neq in Hn. now rewrite Hn. }
  split.
  { destruct (asklong_answer env) as [n |]; [ | discriminate ].
    destruct (n =? 0) eqn:Hn; [ discriminate | now apply Z.eqb_neq ]. }
  split.
  { intros Hnonneg. destruct (asklong_answer env) as [n |]; [ | reflexivity ].
    specialize (Hnonneg n eq_refl).
    destruct (n =? 0) eqn:Hn; [ reflexivity | apply Z.eqb_neq in Hn; lia ]. }
  intros Hengine. rewrite Hengine. cbn [String.eqb Ascii.eqb Bool.eqb].
  rewrite <- app_assoc. reflexivity.
Qed.

(** ** The script timeout *)

(** C9, as stated, fails: the timeout that was armed before the session
    was built is disarmed when the builder returns. *)
Lemma script_timeout_not_restored :
  exists (s : PropagateTaint) (w' : World),
    PropagateTaint_init example_env 4198400 "reg" example_world
    = (inr s, w') /\
    script_timeout example_world = true /\
    script_timeout w' = false.
Proof.
  rewrite PropagateTaint_init_run. eexists _, _.
  split; [ reflexivity | ]. split; reflexivity.
Qed.

(** C9, amended. The builder disables the script timeout before it
    prompts: the call that disables it is the first host call, and both
    prompts come after it. When the builder returns, the timeout is
    disabled, whatever it was before: nothing in the builder arms it
    again. *)
Theorem script_timeout_disabled (env : Env) (addr : Z) (kind : string)
    (w : World) :
  exists (s : PropagateTaint) (w' : World) (hist defval : Z)
         (defstr prompt1 prompt2 : string) (later : list Event),
    PropagateTaint_init env addr kind w = (inr s, w') /\
    trace w' =
      trace w ++
      EvDisableScriptTimeout :: EvAskStr hist defstr prompt1
      :: EvAskLong defval prompt2 :: later /\
    forallb (fun e => negb (is_prompt e)) later = true /\
    script_timeout w' = false.
Proof.
  rewrite PropagateTaint_init_run.
  eexists _, _, _, _, _, _, _, _.
  split; [ reflexivity | ]. cbn [trace script_timeout].
  split; [ reflexivity | ]. split; reflexivity.
Qed.

(** ** The callback registry *)

Lemma with_trace_nil (w : World) : with_trace w [] = w.
Proof. destruct w. unfold with_trace. cbn. now rewrite app_nil_r. Qed.

Lemma with_trace_app (w : World) (e1 e2 : list Event) :
  with_trace (with_trace w e1) e2 = with_trace w (e1 ++ e2).
Proof. unfold with_trace. cbn. now rewrite app_assoc. Qed.

Lemma call_returns (c : Callback) (data : Payload) (w : World) :
  cb_body c data = None ->
  call c data w = (inr tt, with_trace w [EvCall (cb_id c) data]).
Proof. intros H. unfold call, bind, log. now rewrite H. Qed.

Lemma call_raises (c : Callback) (data : Payload) (w : World) (msg : string) :
  cb_body c data = Some msg ->
  call c data w =
  (inl (CallbackRaised (cb_id c) msg), with_trace w [EvCall (cb_id c) data]).
Proof. intros H. unfold call, bind, log. now rewrite H. Qed.

(** A loop over callbacks that all return calls each of them, in order. *)
Lemma for_each_call_returns (data : Payload) (cbs : list Callback) :
  forall w : World,
    Forall (fun c => cb_body c data = None) cbs ->
    for_each cbs (fun c => call c data) w =
    (inr tt, with_trace w (call_events data cbs)).
Proof.
  induction cbs as [| c cbs IH]; intros w Hall.
  - cbn. now rewrite with_trace_nil.
  - inversion Hall as [| ? ? Hc Hrest]; subst.
    cbn [for_each].
    erewrite bind_ok by (apply call_returns; exact Hc).
    rewrite IH by assumption.
    now rewrite with_trace_app.
Qed.

(** A loop that meets a raising callback stops there. *)
Lemma for_each_call_raises (data : Payload) (pre : list Callback) :
  forall (c : Callback) (post : list Callback) (msg : string) (w : World),
    Forall (fun c' => cb_body c' data = None) pre ->
    cb_body c data = Some msg ->
    for_each (pre ++ c :: post) (fun c' => call c' data) w =
    (inl (CallbackRaised (cb_id c) msg),
     with_trace w (call_events data (pre ++ [c]))).
Proof.
  induction pre as [| c0 pre IH]; intros c post msg w Hall Hc.
  - cbn [app for_each].
    erewrite bind_raise by (apply call_raises; exact Hc). reflexivity.
  - inversion Hall as [| ? ? Hc0 Hrest]; subst.
    cbn [app for_each].
    erewrite bind_ok by (apply call_returns; exact Hc0).
    rewrite (IH c post msg) by assumption.
    now rewrite with_trace_app.
Qed.

Lemma do_callbacks_unfold (k : string) (w : World) (cbs : list Callback) :
  _callbacks w !! k = Some cbs ->
  _do_callbacks k w =
  for_each cbs
    (fun c => call c {| ea := ScreenEA w; ptr_or_reg := k |}) w.
Proof.
  intros Hk. unfold _do_callbacks, bind, get_ScreenEA, callbacks_at.
  now rewrite Hk.
Qed.

Lemma call_events_app (data : Payload) (l1 l2 : list Callback) :
  call_events data (l1 ++ l2) = call_events data l1 ++ call_events data l2.
Proof. apply map_app. Qed.

Lemma calls_of_app (id : nat) (e1 e2 : list Event) :
  calls_of id (e1 ++ e2) = calls_of id e1 ++ calls_of id e2.
Proof.
  induction e1 as [| e e1 IH]; [ reflexivity | ].
  destruct e; cbn [app calls_of]; try exact IH.
  destruct (Nat.eqb id cb); [ cbn [app]; now rewrite IH | exact IH ].
Qed.

Lemma calls_of_others (id : nat) (data : Payload) (cbs : list Callback) :
  Forall (fun c => cb_id c <> id) cbs ->
  calls_of id (call_events data cbs) = [].
Proof.
  induction 1 as [| c cbs Hc _ IH]; [ reflexivity | ].
  cbn [call_events map calls_of].
  destruct (Nat.eqb id (cb_id c)) eqn:E; [ | exact IH ].
  apply Nat.eqb_eq in E. congruence.
Qed.

(** C6, as stated, fails: the callback registered after one that raises
    is not called. *)
Lemma raising_callback_stops_dispatch :
  exists w' : World,
    _callbacks example_registered !! "ptr" = Some [raiser; observer] /\
    _do_callbacks "ptr" example_registered
    = (inl (CallbackRaised 1 "boom"), w') /\
    calls_of (cb_id raiser) (trace w')
    = [ {| ea := 4198400; ptr_or_reg := "ptr" |} ] /\
    calls_of (cb_id observer) (trace w') = [].
Proof.
  exists (with_trace example_registered
            [EvCall 1 {| ea := 4198400; ptr_or_reg := "ptr" |}]).
  split; [ reflexivity | ].
  split; [ | split; reflexivity ].
  rewrite (do_callbacks_unfold "ptr" example_registered [raiser; observer])
    by reflexivity.
  apply (for_each_call_raises _ [] raiser [observer] "boom");
    [ constructor | reflexivity ].
Qed.

(** C6, amended. Dispatch calls the callbacks registered for the kind in
    registration order. When all of them return, each is called once.
    When one raises, those before it and it have been called, the
    exception leaves the dispatch, and those after it are not called. *)
Theorem dispatch_in_registration_order (k : string) (w : World)
    (cbs : list Callback) :
  _callbacks w !! k = Some cbs ->
  (Forall (fun c => cb_body c {| ea := ScreenEA w; ptr_or_reg := k |} = None)
     cbs ->
   _do_callbacks k w =
   (inr tt,
    with_trace w
      (call_events {| ea := ScreenEA w; ptr_or_reg := k |} cbs))) /\
  (forall (pre : list Callback) (c : Callback) (post : list Callback)
          (msg : string),
     cbs = pre ++ c :: post ->
     Forall (fun c' =>
               cb_body c' {| ea := ScreenEA w; ptr_or_reg := k |} = None)
       pre ->
     cb_body c {| ea := ScreenEA w; ptr_or_reg := k |} = Some msg ->
     _do_callbacks k w =
     (inl (CallbackRaised (cb_id c) msg),
      with_trace w
        (call_events {| ea := ScreenEA w; ptr_or_reg := k |}
           (pre ++ [c])))).
Proof.
  intros Hk. rewrite (do_callbacks_unfold k w cbs Hk). split.
  - apply for_each_call_returns.
  - intros pre c post msg -> Hpre Hc.
    now apply for_each_call_raises.
Qed.

Lemma dispatch_in_registration_order_witness :
  (Forall (fun c => cb_body c {| ea := 4198400; ptr_or_reg := "ptr" |} = None)
     [raiser; observer] ->
   _do_callbacks "ptr" example_registered =
   (inr tt,
    with_trace example_registered
      (call_events {| ea := 4198400; ptr_or_reg := "ptr" |}
         [raiser; observer]))) /\
  (forall (pre : list Callback) (c : Callback) (post : list Callback)
          (msg : string),
     [raiser; observer] = pre ++ c :: post ->
     Forall (fun c' =>
               cb_body c' {| ea := 4198400; ptr_or_reg := "ptr" |} = None)
       pre ->
     cb_body c {| ea := 4198400; ptr_or_reg := "ptr" |} = Some msg ->
     _do_callbacks "ptr" example_registered =
     (inl (CallbackRaised (cb_id c) msg),
      with_trace example_registered
        (call_events {| ea := 4198400; ptr_or_reg := "ptr" |}
           (pre ++ [c])))).
Proof.
  apply (dispatch_in_registration_order "ptr" example_registered
           [raiser; observer]).
  reflexivity.
Defined.

Lemma install_as_registered (cb : Callback) (k : string) (w : World)
    (registered : list Callback) :
  k = "ptr" \/ k = "reg" ->
  _callbacks w !! k = Some registered ->
  install_callback_as cb k w =
  (inr tt, with_callbacks w (<[k := registered ++ [cb]]> (_callbacks w))).
Proof.
  intros Hk Hregistered. unfold install_callback_as.
  assert (Hvalid : String.eqb k "ptr" || String.eqb k "reg" = true)
    by (destruct Hk as [-> | ->]; reflexivity).
  rewrite Hvalid. unfold bind, callbacks_at. rewrite Hregistered.
  reflexivity.
Qed.

(** The last callback of a bucket is reached when those before it
    return, and the calls made are the same whether it returns or
    raises. *)
Lemma for_each_call_last (data : Payload) (pre : list Callback)
    (c : Callback) (w : World) :
  Forall (fun c' => cb_body c' data = None) pre ->
  exists r : PyExn + unit,
    for_each (pre ++ [c]) (fun c' => call c' data) w =
    (r, with_trace w (call_events data (pre ++ [c]))).
Proof.
  intros Hpre. destruct (cb_body c data) as [msg |] eqn:Hc.
  - eexists. apply (for_each_call_raises data pre c [] msg w Hpre Hc).
  - eexists. apply for_each_call_returns.
    apply Forall_app. split; [ assumption | ].
    constructor; [ exact Hc | constructor ].
Qed.

(** C7. In a registry that has both buckets, installing a callback with
    no kind appends it to the ['ptr'] bucket and to the ['reg'] bucket.
    When the callbacks registered before it return and are other
    callbacks, a dispatch for ['ptr'] followed by a dispatch for ['reg']
    calls it exactly twice: first with the payload of kind ['ptr'], then
    with the payload of kind ['reg']. *)
Theorem install_without_kind (cb : Callback) (w : World)
    (ptrs regs : list Callback) :
  _callbacks w !! "ptr" = Some ptrs ->
  _callbacks w !! "reg" = Some regs ->
  Forall (fun c => cb_id c <> cb_id cb) (ptrs ++ regs) ->
  Forall (fun c => forall data : Payload, cb_body c data = None)
    (ptrs ++ regs) ->
  exists (w1 w2 w3 : World) (r2 r3 : PyExn + unit) (calls : list Event),
    install_callback cb None w = (inr tt, w1) /\
    _callbacks w1 !! "ptr" = Some (ptrs ++ [cb]) /\
    _callbacks w1 !! "reg" = Some (regs ++ [cb]) /\
    trace w1 = trace w /\
    _do_callbacks "ptr" w1 = (r2, w2) /\
    _do_callbacks "reg" w2 = (r3, w3) /\
    trace w3 = trace w ++ calls /\
    calls_of (cb_id cb) calls =
      [ {| ea := ScreenEA w; ptr_or_reg := "ptr" |};
        {| ea := ScreenEA w; ptr_or_reg := "reg" |} ].
Proof.
  intros Hptr Hreg Hfresh Hquiet.
  apply Forall_app in Hfresh as [Hfresh_p Hfresh_r].
  apply Forall_app in Hquiet as [Hquiet_p Hquiet_r].
  set (m1 := <["ptr" := ptrs ++ [cb]]> (_callbacks w)).
  set (m2 := <["reg" := regs ++ [cb]]> m1).
  assert (Hm2p : m2 !! "ptr" = Some (ptrs ++ [cb])).
  { unfold m2, m1. rewrite lookup_insert_ne by discriminate.
    apply lookup_insert_eq. }
  assert (Hm2r : m2 !! "reg" = Some (regs ++ [cb])).
  { unfold m2. apply lookup_insert_eq. }
  assert (Hinstall : install_callback cb None w
                     = (inr tt, with_callbacks w m2)).
  { unfold install_callback.
    erewrite bind_ok
      by (apply install_as_registered; [ left; reflexivity | exact Hptr ]).
    erewrite install_as_registered;
      [ reflexivity | right; reflexivity | ].
    cbn [with_callbacks _callbacks].
    rewrite lookup_insert_ne by discriminate. exact Hreg. }
  destruct (for_each_call_last
              {| ea := ScreenEA w; ptr_or_reg := "ptr" |} ptrs cb
              (with_callbacks w m2)) as [r2 Hr2].
  { eapply Forall_impl; [ exact Hquiet_p | ]. intros c Hc. apply Hc. }
  destruct (for_each_call_last
              {| ea := ScreenEA w; ptr_or_reg := "reg" |} regs cb
              (with_trace (with_callbacks w m2)
                 (call_events {| ea := ScreenEA w; ptr_or_reg := "ptr" |}
                    (ptrs ++ [cb])))) as [r3 Hr3].
  { eapply Forall_impl; [ exact Hquiet_r | ]. intros c Hc. apply Hc. }
  eexists (with_callbacks w m2), _, _, r2, r3, _.
  split; [ exact Hinstall | ].
  split; [ exact Hm2p | ]. split; [ exact Hm2r | ].
  split; [ reflexivity | ].
  split.
  { rewrite (do_callbacks_unfold "ptr" (with_callbacks w m2) (ptrs ++ [cb]));
      [ exact Hr2 | exact Hm2p ]. }
  split.
  { rewrite (do_callbacks_unfold "reg" _ (regs ++ [cb]));
      [ exact Hr3 | exact Hm2r ]. }
  split.
  { cbn [with_trace with_callbacks trace]. rewrite <- app_assoc.
    reflexivity. }
  rewrite !call_events_app, !calls_of_app.
  rewrite (calls_of_others _ _ ptrs), (calls_of_others _ _ regs)
    by assumption.
  cbn [call_events map calls_of app]. rewrite Nat.eqb_refl. reflexivity.
Qed.

Lemma install_without_kind_witness :
  exists (w1 w2 w3 : World) (r2 r3 : PyExn + unit) (calls : list Event),
    install_callback raiser None example_observed = (inr tt, w1) /\
    _callbacks w1 !! "ptr" = Some ([] ++ [raiser]) /\
    _callbacks w1 !! "reg" = Some ([observer] ++ [raiser]) /\
    trace w1 = trace example_observed /\
    _do_callbacks "ptr" w1 = (r2, w2) /\
    _do_callbacks "reg" w2 = (r3, w3) /\
    trace w3 = trace example_observed ++ calls /\
    calls_of (cb_id raiser) calls =
      [ {| ea := ScreenEA example_observed; ptr_or_reg := "ptr" |};
        {| ea := ScreenEA example_observed; ptr_or_reg := "reg" |} ].
Proof.
  apply (install_without_kind raiser example_observed [] [observer]);
    [ reflexivity | reflexivity
    | constructor; [ discriminate | constructor ]
    | constructor; [ reflexivity | constructor ] ].
Defined.

(** C8. Installing a callback under a kind that is neither ['ptr'] nor
    ['reg'] ends in the host's fatal error, whose message names the
    value; the registry, and with it both buckets, is left as it was,
    and so is everything else but the trace. *)
Theorem install_invalid_kind (cb : Callback) (k : string) (w : World) :
  k <> "ptr" ->
  k <> "reg" ->
  exists w' : World,
    install_callback cb (Some k) w =
    (inl (Fatal ("Invalid ptr_or_reg value passed " +:+ PyRepr.repr k)), w')
    /\ _callbacks w' = _callbacks w
    /\ _callbacks w' !! "ptr" = _callbacks w !! "ptr"
    /\ _callbacks w' !! "reg" = _callbacks w !! "reg"
    /\ w' = with_trace w
              [EvFatal ("Invalid ptr_or_reg value passed "
                        +:+ PyRepr.repr k)].
Proof.
  intros Hptr Hreg. apply String.eqb_neq in Hptr, Hreg.
  eexists. unfold install_callback, install_callback_as.
  rewrite Hptr, Hreg. cbn [orb].
  split; [ reflexivity | ].
  repeat (split; [ reflexivity | ]). reflexivity.
Qed.

Lemma install_invalid_kind_witness :
  exists w' : World,
    install_callback observer (Some "bogus") example_registered =
    (inl (Fatal "Invalid ptr_or_reg value passed 'bogus'"), w')
    /\ _callbacks w' = _callbacks example_registered
    /\ _callbacks w' !! "ptr" = _callbacks example_registered !! "ptr"
    /\ _callbacks w' !! "reg" = _callbacks example_registered !! "reg"
    /\ w' = with_trace example_registered
              [EvFatal "Invalid ptr_or_reg value passed 'bogus'"].
Proof.
  apply (install_invalid_kind observer "bogus" example_registered);
    discriminate.
Defined.

(** ** The completion handler *)

(** When the callbacks registered for the plugin's kind return, [finish]
    executes the generated script, refreshes the view, calls them with
    the address under the cursor at that moment, and refreshes again. *)
Lemma finish_run (self : BapTaint) (bap : PropagateTaint) (w : World)
    (cbs : list Callback) :
  _callbacks w !! kind self = Some cbs ->
  Forall (fun c =>
            cb_body c {| ea := ScreenEA w; ptr_or_reg := kind self |} = None)
    cbs ->
  finish self bap w =
  (inr tt,
   with_trace w
     ([ EvExecScript (File.name (script bap)); EvRefreshIdaviewAnyway ]
      ++ call_events {| ea := ScreenEA w; ptr_or_reg := kind self |} cbs
      ++ [ EvRefresh ])).
Proof.
  intros Hk Hquiet. unfold finish.
  erewrite bind_ok by reflexivity.
  erewrite bind_ok by reflexivity.
  erewrite bind_ok.
  2: { erewrite do_callbacks_unfold by exact Hk.
       apply for_each_call_returns. exact Hquiet. }
  unfold Refresh, IDAPython_ExecScript, refresh_idaview_anyway, log,
    with_trace.
  cbn [script_timeout ScreenEA files _callbacks trace snd].
  rewrite <- !app_assoc. reflexivity.
Qed.

(** C5 at the failing input. The user starts a session with the cursor
    at 0x401000 and moves the cursor to 0x402000 while the engine runs.
    The session taints 0x401000; the handler executes the script,
    refreshes, calls the callback and refreshes again, but the payload
    carries 0x402000. *)
Theorem finish_payload_is_cursor_at_completion :
  exists (s : PropagateTaint) (w1 w2 w3 : World) (tail : list string),
    BapTaint_init "reg" = inr example_plugin /\
    start example_env example_plugin example_observed = (inr s, w1) /\
    args s = base_args example_env ++ "--taint-reg" :: "0x401000" :: tail /\
    move_cursor 4202496 w1 = (inr tt, w2) /\
    finish example_plugin s w2 = (inr tt, w3) /\
    trace w3 =
      trace w1 ++
      [ EvExecScript (File.name (script s));
        EvRefreshIdaviewAnyway;
        EvCall (cb_id observer) {| ea := 4202496; ptr_or_reg := "reg" |};
        EvRefresh ] /\
    4202496 <> 4198400.
Proof.
  unfold start, bind, get_ScreenEA.
  rewrite PropagateTaint_init_run.
  eexists _, _, _, _, _.
  split; [ reflexivity | ]. split; [ reflexivity | ].
  split; [ reflexivity | ]. split; [ reflexivity | ].
  split.
  { apply (finish_run example_plugin _ _ [observer]);
      [ reflexivity | constructor; [ reflexivity | constructor ] ]. }
  split; [ reflexivity | discriminate ].
Qed.

(** ** The completion handler, in general *)


Lemma refreshes_call_events (data : Payload) (cbs : list Callback) :
  refreshes (call_events data cbs) = 0%nat.
Proof. induction cbs as [| c cbs IH]; [ reflexivity | exact IH ]. Qed.



(** X2. When a registered callback raises, [finish] has executed the
    script, refreshed the view and called the callbacks up to and
    including that one; the exception leaves [finish], and the final
    display refresh is never requested. *)
Theorem finish_stops_at_raising_callback (self : BapTaint)
    (bap : PropagateTaint) (w : World) (pre : list Callback) (c : Callback)
    (post : list Callback) (msg : string) :
  _callbacks w !! kind self = Some (pre ++ c :: post) ->
  Forall (fun c' =>
            cb_body c' {| ea := ScreenEA w; ptr_or_reg := kind self |} = None)
    pre ->
  cb_body c {| ea := ScreenEA w; ptr_or_reg := kind self |} = Some msg ->
  exists (w' : World) (done : list Event),
    finish self bap w = (inl (CallbackRaised (cb_id c) msg), w') /\
    trace w' = trace w ++ done /\
    done =
      EvExecScript (File.name (script bap)) :: EvRefreshIdaviewAnyway
      :: call_events {| ea := ScreenEA w; ptr_or_reg := kind self |}
           (pre ++ [c]) /\
    refreshes done = 0%nat.
Proof.
  intros Hk Hpre Hc. unfold finish.
  erewrite bind_ok by reflexivity.
  erewrite bind_ok by reflexivity.
  erewrite bind_raise.
  2: { erewrite do_callbacks_unfold by exact Hk.
       apply for_each_call_raises; [ exact Hpre | exact Hc ]. }
  eexists _, _. split; [ reflexivity | ].
  unfold IDAPython_ExecScript, refresh_idaview_anyway, log, with_trace.
  cbn [script_timeout ScreenEA files _callbacks trace snd].
  split; [ rewrite <- !app_assoc; reflexivity | ].
  split; [ reflexivity | ].
  cbn [refreshes]. apply refreshes_call_events.
Qed.

Lemma finish_stops_at_raising_callback_witness :
  exists (w' : World) (done : list Event),
    finish {| kind := "ptr"; wanted_name := "BAP: Taintpointer" |}
      {| action := ""; passes := [];
         script := {| File.handle := 0; File.name := "/tmp/bap/out.py" |};
         args := [] |}
      example_registered = (inl (CallbackRaised (cb_id raiser) "boom"), w') /\
    trace w' = trace example_registered ++ done /\
    done =
      EvExecScript "/tmp/bap/out.py" :: EvRefreshIdaviewAnyway
      :: call_events {| ea := 4198400; ptr_or_reg := "ptr" |}
           ([] ++ [raiser]) /\
    refreshes done = 0%nat.
Proof.
  apply (finish_stops_at_raising_callback
           {| kind := "ptr"; wanted_name := "BAP: Taintpointer" |}
           {| action := ""; passes := [];
              script := {| File.handle := 0; File.name := "/tmp/bap/out.py" |};
              args := [] |}
           example_registered [] raiser [observer] "boom");
    [ reflexivity | constructor | reflexivity ].
Defined.

(** ** Dispatch, in general *)



(** ** The registry over many installations *)

Lemma install_as_invalid (cb : Callback) (k : string) (w : World) :
  String.eqb k "ptr" = false ->
  String.eqb k "reg" = false ->
  install_callback_as cb k w =
  (inl (Fatal ("Invalid ptr_or_reg value passed " +:+ PyRepr.repr k)),
   with_trace w
     [EvFatal ("Invalid ptr_or_reg value passed " +:+ PyRepr.repr k)]).
Proof.
  intros Hptr Hreg. unfold install_callback_as.
  rewrite Hptr, Hreg. reflexivity.
Qed.

(** One installation, on a registry that has both buckets: what each
    bucket holds afterwards. *)
Lemma install_callback_buckets (cb : Callback) (k : option string)
    (w : World) (ptrs regs : list Callback) :
  _callbacks w !! "ptr" = Some ptrs ->
  _callbacks w !! "reg" = Some regs ->
  _callbacks (snd (install_callback cb k w)) !! "ptr" =
    Some (ptrs ++ if registers_for "ptr" k then [cb] else []) /\
  _callbacks (snd (install_callback cb k w)) !! "reg" =
    Some (regs ++ if registers_for "reg" k then [cb] else []) /\
  files (snd (install_callback cb k w)) = files w /\
  ScreenEA (snd (install_callback cb k w)) = ScreenEA w /\
  script_timeout (snd (install_callback cb k w)) = script_timeout w.
Proof.
  intros Hptr Hreg. destruct k as [k |]; cbn [install_callback registers_for].
  - destruct (String.eqb k "ptr") eqn:Ep.
    + apply String.eqb_eq in Ep. subst k.
      rewrite (install_as_registered cb "ptr" w ptrs)
        by (try left; done).
      cbn [snd with_callbacks _callbacks files ScreenEA script_timeout].
      rewrite lookup_insert_eq, lookup_insert_ne by discriminate.
      rewrite Hreg. cbn [String.eqb Ascii.eqb Bool.eqb].
      now rewrite app_nil_r.
    + destruct (String.eqb k "reg") eqn:Er.
      * apply String.eqb_eq in Er. subst k.
        rewrite (install_as_registered cb "reg" w regs)
          by (try right; done).
        cbn [snd with_callbacks _callbacks files ScreenEA script_timeout].
        rewrite lookup_insert_eq, lookup_insert_ne by discriminate.
        rewrite Hptr. now rewrite app_nil_r.
      * rewrite (install_as_invalid cb k w Ep Er).
        cbn [snd with_trace _callbacks files ScreenEA script_timeout].
        rewrite Hptr, Hreg. now rewrite !app_nil_r.
  - erewrite bind_ok
      by (apply install_as_registered; [ left; reflexivity | exact Hptr ]).
    erewrite install_as_registered;
      [ | right; reflexivity
        | cbn [with_callbacks _callbacks];
          rewrite lookup_insert_ne by discriminate; exact Hreg ].
    cbn [snd with_callbacks _callbacks files ScreenEA script_timeout].
    rewrite lookup_insert_eq, lookup_insert_ne, lookup_insert_eq
      by discriminate.
    repeat split; reflexivity.
Qed.

(** X4. Starting from a registry that has both buckets, after any
    sequence of installations (with no kind, with a valid kind, or with
    an invalid one) each bucket holds what it held before, followed by
    the callbacks installed for it, in the order of the calls: those
    installed under its kind or under no kind. Nothing is removed or
    reordered, and installations leave the files, the cursor and the
    script timeout alone. *)
Theorem registrations_follow_call_order
    (calls : list (Callback * option string)) :
  forall (w : World) (ptrs regs : list Callback),
    _callbacks w !! "ptr" = Some ptrs ->
    _callbacks w !! "reg" = Some regs ->
    _callbacks (install_all calls w) !! "ptr" =
      Some (ptrs ++ registered_by "ptr" calls) /\
    _callbacks (install_all calls w) !! "reg" =
      Some (regs ++ registered_by "reg" calls) /\
    files (install_all calls w) = files w /\
    ScreenEA (install_all calls w) = ScreenEA w /\
    script_timeout (install_all calls w) = script_timeout w.
Proof.
  induction calls as [| [cb k] calls IH]; intros w ptrs regs Hptr Hreg.
  - cbn [install_all registered_by]. rewrite !app_nil_r.
    repeat split; assumption || reflexivity.
  - cbn [install_all registered_by].
    destruct (install_callback_buckets cb k w ptrs regs Hptr Hreg)
      as (Hp1 & Hr1 & Hf1 & Hc1 & Ht1).
    destruct (IH _ _ _ Hp1 Hr1) as (Hp & Hr & Hf & Hc & Ht).
    rewrite Hp, Hr, Hf, Hc, Ht, Hf1, Hc1, Ht1.
    split.
    { destruct (registers_for "ptr" k);
        rewrite <- app_assoc; reflexivity. }
    split.
    { destruct (registers_for "reg" k);
        rewrite <- app_assoc; reflexivity. }
    repeat split; reflexivity.
Qed.

Lemma registrations_follow_call_order_witness :
  _callbacks
    (install_all [ (raiser, None); (observer, Some "bogus");
                   (observer, Some "ptr"); (raiser, Some "reg") ]
       example_observed) !! "ptr" =
    Some ([] ++ [raiser; observer]) /\
  _callbacks
    (install_all [ (raiser, None); (observer, Some "bogus");
                   (observer, Some "ptr"); (raiser, Some "reg") ]
       example_observed) !! "reg" =
    Some ([observer] ++ [raiser; raiser]) /\
  files
    (install_all [ (raiser, None); (observer, Some "bogus");
                   (observer, Some "ptr"); (raiser, Some "reg") ]
       example_observed) = files example_observed /\
  ScreenEA
    (install_all [ (raiser, None); (observer, Some "bogus");
                   (observer, Some "ptr"); (raiser, Some "reg") ]
       example_observed) = ScreenEA example_observed /\
  script_timeout
    (install_all [ (raiser, None); (observer, Some "bogus");
                   (observer, Some "ptr"); (raiser, Some "reg") ]
       example_observed) = script_timeout example_observed.
Proof.
  apply (registrations_follow_call_order
           [ (raiser, None); (observer, Some "bogus");
             (observer, Some "ptr"); (raiser, Some "reg") ]
           example_observed [] [observer]); reflexivity.
Defined.

Lemma install_as_dom (cb : Callback) (k : string) (w : World) :
  dom (_callbacks (snd (install_callback_as cb k w))) = dom (_callbacks w).
Proof.
  unfold install_callback_as.
  destruct (String.eqb k "ptr" || String.eqb k "reg").
  - unfold bind, callbacks_at.
    destruct (_callbacks w !! k) as [registered |] eqn:Hk;
      [ | reflexivity ].
    cbn [ret snd set_callbacks _callbacks].
    rewrite dom_insert_L. apply elem_of_dom_2 in Hk.
    apply subseteq_union_1_L, singleton_subseteq_l. exact Hk.
  - reflexivity.
Qed.

Lemma install_callback_dom (cb : Callback) (k : option string) (w : World) :
  dom (_callbacks (snd (install_callback cb k w))) = dom (_callbacks w).
Proof.
  destruct k as [k |]; cbn [install_callback].
  - apply install_as_dom.
  - unfold bind.
    pose proof (install_as_dom cb "ptr" w) as Hptr.
    destruct (install_callback_as cb "ptr" w) as [[e | u] w1];
      cbn [snd] in *; [ exact Hptr | ].
    rewrite install_as_dom. exact Hptr.
Qed.

(** X5. No sequence of installations, whatever the kinds passed and
    whether the calls succeed or fail, adds a bucket to the registry or
    removes one: the registry created with the buckets ['ptr'] and
    ['reg'] has exactly these two for ever. *)
Theorem installations_keep_the_buckets
    (calls : list (Callback * option string)) :
  forall w : World,
    dom (_callbacks (install_all calls w)) = dom (_callbacks w) /\
    (_callbacks w = initial_callbacks ->
     dom (_callbacks (install_all calls w)) = {[ "ptr"; "reg" ]}).
Proof.
  induction calls as [| [cb k] calls IH]; intros w.
  - cbn [install_all]. split; [ reflexivity | ].
    intros ->. unfold initial_callbacks.
    rewrite dom_insert_L, dom_singleton_L. reflexivity.
  - cbn [install_all].
    destruct (IH (snd (install_callback cb k w))) as [Hdom _].
    assert (Hall : dom (_callbacks
                          (install_all calls (snd (install_callback cb k w))))
                   = dom (_callbacks w))
      by (rewrite Hdom; apply install_callback_dom).
    split; [ exact Hall | ].
    intros Hinit. rewrite Hall, Hinit. unfold initial_callbacks.
    rewrite dom_insert_L, dom_singleton_L. reflexivity.
Qed.






(** ** The session builder and the store of files *)

(** X8. Whatever the engine, the builder allocates exactly four files,
    in the order script ([py]), scheme ([scm]), [stdin], [stdout]; it
    leaves the script and the two channel files open and empty, keeps
    the session's [script] attribute on the first of them, and changes
    no file that existed before, nor the registry, nor the cursor. *)
Theorem builder_allocates_four_files (env : Env) (addr : Z) (kind : string)
    (w : World) :
  exists (s : PropagateTaint) (w' : World),
    PropagateTaint_init env addr kind w = (inr s, w') /\
    files w' =
      files w ++
      [ {| File.path := tmpname env (length (files w)) "py";
           File.data := ""; File.closed := false |};
        {| File.path := tmpname env (S (length (files w))) "scm";
           File.data := scheme_lines patterns; File.closed := true |};
        {| File.path := tmpname env (S (S (length (files w)))) "stdin";
           File.data := ""; File.closed := false |};
        {| File.path := tmpname env (S (S (S (length (files w))))) "stdout";
           File.data := ""; File.closed := false |} ] /\
    script s = {| File.handle := length (files w);
                  File.name := tmpname env (length (files w)) "py" |} /\
    (forall (i : nat) (f : File.state),
       files w !! i = Some f -> files w' !! i = Some f) /\
    _callbacks w' = _callbacks w /\
    ScreenEA w' = ScreenEA w.
Proof.
  rewrite PropagateTaint_init_run. eexists _, _.
  split; [ reflexivity | ].
  cbn [files script _callbacks ScreenEA].
  split; [ reflexivity | ]. split; [ reflexivity | ].
  split; [ | split; reflexivity ].
  intros i f Hi. now apply lookup_app_l_Some.
Qed.

(** X9. The address token is faithful: two different non-negative
    addresses never give the same [0x...] token. *)
Theorem address_tokens_are_distinct (a b : Z) :
  0 <= a ->
  0 <= b ->
  a <> b ->
  "0x" +:+ PyFormat.format_X a <> "0x" +:+ PyFormat.format_X b.
Proof.
  intros Ha Hb Hne Heq. apply Hne.
  rewrite !append_cons in Heq.
  change ("" +:+ PyFormat.format_X a) with (PyFormat.format_X a) in Heq.
  change ("" +:+ PyFormat.format_X b) with (PyFormat.format_X b) in Heq.
  injection Heq as Heq.
  pose proof (format_X_parse a Ha) as Hpa.
  pose proof (format_X_parse b Hb) as Hpb.
  rewrite Heq in Hpa. congruence.
Qed.

Lemma address_tokens_are_distinct_witness :
  4198400 <> 4198416 /\
  "0x" +:+ PyFormat.format_X 4198400 <> "0x" +:+ PyFormat.format_X 4198416.
Proof.
  split; [ lia | ].
  apply (address_tokens_are_distinct 4198400 4198416); lia.
Defined.

(** ** From the gesture to the callbacks *)

(** X10. A plugin can only be created for the kinds ['ptr'] and ['reg'],
    and running it builds a session that taints the address under the
    cursor with the qualifier of the plugin's kind, which is one of
    [--taint-ptr] and [--taint-reg]; the argument of [run] plays no
    part. *)
Theorem run_taints_the_cursor (env : Env) (k : string) (self : BapTaint)
    (arg : Z) (w : World) :
  BapTaint_init k = inr self ->
  exists (s : PropagateTaint) (w' : World) (tail : list string),
    run env self arg w = (inr s, w') /\
    (k = "ptr" \/ k = "reg") /\
    kind self = k /\
    wanted_name self =
      "BAP: Taint" +:+ (if String.eqb k "ptr" then "pointer" else "value") /\
    args s =
      base_args env ++
      ("--taint-" +:+ k) :: ("0x" +:+ PyFormat.format_X (ScreenEA w))
      :: tail /\
    is_taint_flag ("--taint-" +:+ k) = true.
Proof.
  intros Hinit. unfold BapTaint_init in Hinit.
  assert (Hk : (k = "ptr" \/ k = "reg") /\
               self = {| kind := k;
                         wanted_name :=
                           "BAP: Taint"
                           +:+ (if String.eqb k "ptr"
                                then "pointer" else "value") |}).
  { destruct (String.eqb k "ptr") eqn:Ep; cbn [orb] in Hinit.
    - apply String.eqb_eq in Ep. split; [ now left | congruence ].
    - destruct (String.eqb k "reg") eqn:Er; [ | discriminate ].
      apply String.eqb_eq in Er. split; [ now right | congruence ]. }
  destruct Hk as [Hk ->]. cbn [kind wanted_name].
  unfold run, start, bind, get_ScreenEA.
  rewrite PropagateTaint_init_run. eexists _, _, _.
  split; [ reflexivity | ]. split; [ exact Hk | ].
  split; [ reflexivity | ]. split; [ reflexivity | ].
  cbn [args kind]. unfold common_tokens.
  split; [ reflexivity | ].
  destruct Hk as [-> | ->]; reflexivity.
Qed.

Lemma run_taints_the_cursor_witness :
  exists (s : PropagateTaint) (w' : World) (tail : list string),
    run example_env example_plugin 0 example_world = (inr s, w') /\
    ("reg" = "ptr" \/ "reg" = "reg") /\
    kind example_plugin = "reg" /\
    wanted_name example_plugin =
      "BAP: Taint"
      +:+ (if String.eqb "reg" "ptr" then "pointer" else "value") /\
    args s =
      base_args example_env ++
      ("--taint-" +:+ "reg")
      :: ("0x" +:+ PyFormat.format_X (ScreenEA example_world)) :: tail /\
    is_taint_flag ("--taint-" +:+ "reg") = true.
Proof.
  apply (run_taints_the_cursor example_env "reg" example_plugin 0
           example_world).
  reflexivity.
Defined.



(** X12. The builder does not check the kind: for a kind that is neither
    ['ptr'] nor ['reg'] it still returns a session, whose first added
    token is [--taint-] followed by that kind, so that (when neither the
    base arguments nor the file paths are taint qualifiers) the
    arguments hold no taint qualifier at all. The only check of the kind
    is the assertion of [BapTaint.__init__]. *)
Theorem builder_does_not_validate_kind (env : Env) (addr : Z)
    (kind : string) (w : World) :
  kind <> "ptr" ->
  kind <> "reg" ->
  count_tokens is_taint_flag (base_args env) = 0%nat ->
  is_taint_flag (scheme_path env (length (files w))) = false ->
  is_taint_flag (script_path env (length (files w))) = false ->
  exists (s : PropagateTaint) (w' : World) (tail : list string),
    PropagateTaint_init env addr kind w = (inr s, w') /\
    args s = base_args env ++ ("--taint-" +:+ kind) :: tail /\
    count_tokens is_taint_flag (args s) = 0%nat /\
    BapTaint_init kind = inl AssertionError.
Proof.
  intros Hptr Hreg Hbase Hscheme Hscript.
  apply String.eqb_neq in Hptr, Hreg.
  rewrite PropagateTaint_init_run. eexists _, _, _.
  split; [ reflexivity | ]. cbn [args].
  split; [ unfold common_tokens; reflexivity | ].
  split.
  - rewrite !count_tokens_app, Hbase.
    assert (Htail : count_tokens is_taint_flag
                      (if String.eqb (resolved_engine env) "primus"
                       then primus_tokens env addr (length (files w))
                       else []) = 0%nat).
    { destruct (String.eqb (resolved_engine env) "primus"); reflexivity. }
    rewrite Htail. unfold common_tokens. cbn [count_tokens].
    rewrite Hscheme, Hscript.
    assert (Hflag : is_taint_flag ("--taint-" +:+ kind) = false).
    { unfold is_taint_flag.
      change (String.eqb ("--taint-" +:+ kind) "--taint-ptr")
        with (String.eqb kind "ptr").
      change (String.eqb ("--taint-" +:+ kind) "--taint-reg")
        with (String.eqb kind "reg").
      now rewrite Hptr, Hreg. }
    rewrite Hflag.
    destruct (String.eqb (resolved_engine env) "primus"); reflexivity.
  - unfold BapTaint_init. now rewrite Hptr, Hreg.
Qed.

Lemma builder_does_not_validate_kind_witness :
  exists (s : PropagateTaint) (w' : World) (tail : list string),
    PropagateTaint_init example_env 4198400 "bogus" example_world
    = (inr s, w') /\
    args s = base_args example_env ++ ("--taint-" +:+ "bogus") :: tail /\
    count_tokens is_taint_flag (args s) = 0%nat /\
    BapTaint_init "bogus" = inl AssertionError.
Proof.
  apply (builder_does_not_validate_kind example_env 4198400 "bogus"
           example_world);
    [ discriminate | discriminate | reflexivity | reflexivity
    | reflexivity ].
Defined.
